(** * Empirical priors for the bednet stock-and-flow model

    A shallow embedding of [emp_priors.py]: the three estimators
    [llin_discard_rate], [admin_err_and_bias] and [cov_and_zif_fac], and the
    command-line entry point.

    Conventions of the embedding.
    - Python floats are idealised as real numbers ([R]).  Arithmetic that the
      interpreter evaluates eagerly keeps Python's faults: [/] raises
      [ZeroDivisionError] on a zero divisor, [**] raises on the inputs
      CPython's float power rejects.  The numeric type that the sampler's
      statistics have at run time is decided by the [pymc] library, which is
      not part of the repository; Python's own float semantics is used.
    - Exceptions are values of [exn]; a computation is a function from the
      world (cache directory, sampler log, standard output) to a new world and
      either an exception or a result.
    - The external collaborators (the [data] module, simplejson, the MCMC
      sampler) are the fields of the record [externals]; the directory
      [settings.PATH] is part of the world. *)

From Stdlib Require Import Reals Lra.
From stdpp Require Import gmap strings list fin_maps pretty.

Local Open Scope R_scope.

(** ** Exceptions and results *)

Inductive exn : Type :=
| OSError            (* os.listdir / open on a missing directory *)
| KeyError           (* d[k] on a dict without k *)
| TypeError          (* subscripting or arithmetic on a non-number *)
| ZeroDivisionError  (* x / 0.0, 0.0 ** negative *)
| ValueError         (* negative base with a fractional exponent; json *)
| SamplerError       (* any fault raised inside MCMC.sample / stats *)
| SystemExit (code : Z).

Definition res (A : Type) : Type := exn + A.

Abbreviation Raise := inl (only parsing).
Abbreviation Ok := inr (only parsing).

Definition rbind {A B} (r : res A) (k : A → res B) : res B :=
  match r with
  | inl e => inl e
  | inr a => k a
  end.

(** ** Python float arithmetic *)

(** [x / y] *)
Definition pydiv (x y : R) : res R :=
  if Req_dec_T y 0 then Raise ZeroDivisionError else Ok (x / y).

(** [x ** y] on floats, after CPython's [float_pow]. *)
Definition pypow (x y : R) : res R :=
  if Req_dec_T y 0 then Ok 1
  else if Rlt_dec 0 x then Ok (Rpower x y)
  else if Req_dec_T x 0 then
    (if Rlt_dec y 0 then Raise ZeroDivisionError else Ok 0)
  else if Req_dec_T y (IZR (Int_part y)) then Ok (powerRZ x (Int_part y))
  else Raise ValueError.

(** [x ** 2] and [x ** -2] with a literal integer exponent. *)
Definition sqr (x : R) : R := x ^ 2.

Definition pow_m2 (x : R) : res R :=
  if Req_dec_T x 0 then Raise ZeroDivisionError else Ok (/ (x ^ 2)).

(** ** JSON documents, the values the estimators return *)

#[warnings="-register-all"]
Inductive json : Type :=
| JNull
| JNum (r : R)
| JStr (s : string)
| JObj (fields : list (string * json)).

(** [dict(k1=v1, k2=v2)] *)
Definition jdict2 (k1 : string) (v1 : json) (k2 : string) (v2 : json) : json :=
  JObj [(k1, v1); (k2, v2)].

Fixpoint assoc_get (k : string) (l : list (string * json)) : option json :=
  match l with
  | [] => None
  | (k', v) :: l' => if decide (k = k') then Some v else assoc_get k l'
  end.

(** [d[k]] *)
Definition jget (d : json) (k : string) : res json :=
  match d with
  | JObj l => match assoc_get k l with
              | Some v => Ok v
              | None => Raise KeyError
              end
  | _ => Raise TypeError
  end.

(** a JSON value used as a number *)
Definition jnum (v : json) : res R :=
  match v with
  | JNum r => Ok r
  | _ => Raise TypeError
  end.

(** ** The probability model handed to the sampler *)

(** [normal_like(x, mu, tau)] of pymc: the log-density at [x] of the normal
    distribution with mean [mu] and precision [tau]. *)
Definition normal_like (x mu tau : R) : R :=
  - (1/2) * tau * (x - mu) ^ 2 + (1/2) * ln ((1/2) * tau / PI).

(** The textbook log-density of the normal distribution, by mean and
    variance; the yardstick the likelihood nodes are compared with. *)
Definition normal_logpdf (m var x : R) : R :=
  ln (/ sqrt (2 * PI * var)) - (x - m) ^ 2 / (2 * var).

Inductive dist : Type :=
| Beta (alpha beta : R)
| InverseGamma (alpha beta : R)
| Normal (mu tau : R).

(** the current values of the parent stochastics, by name *)
Definition valuation : Type := string → R.

#[warnings="-register-all"]
Inductive node : Type :=
| Stochastic (name : string) (prior : dist)
| Observed (name : string) (value : R) (logp : valuation → res R)
| Container (members : list node).

(** what [stats()] reports for one variable *)
Record stats : Type := { mean : R; standard_deviation : R }.

Definition posterior : Type := string → stats.

(** one call of [MCMC(vars).sample(iter, burn, thin)] *)
Record sample_call : Type :=
  { sc_vars : list node; sc_iter : Z; sc_burn : Z; sc_thin : Z }.

Inductive output : Type :=
| OutMeanStd (x sd : R)
| OutDict (d : json).

(** ** Input rows of the [data] module *)

Record retention_row : Type :=
  { rt_Name : string; rt_Year : Z;
    rt_Retention_Rate : R; rt_Follow_up_Time : R }.

Record admin_row : Type :=
  { ad_Country : string; ad_Year : Z; ad_Program_LLINs : R }.

Record hh_flow_row : Type :=
  { hf_Country : string; hf_Year : Z; hf_mean_survey_date : R;
    hf_Total_LLINs : R; hf_Total_st : R }.

Record population_row : Type :=
  { pp_Country : string; pp_Year : Z; pp_Pop : R }.

Record hh_stock_row : Type :=
  { hs_Country : string; hs_Survey_Year2 : Z;
    hs_SvyIndex_LLINstotal : R; hs_SvyIndex_st : R }.

Record coverage_row : Type :=
  { cv_Country : string; cv_Survey_Year2 : Z;
    cv_Per_0LLINs : R; cv_LLINs0_SE : R }.

Record data_module : Type :=
  { retention : list retention_row;
    admin_llin : list admin_row;
    hh_llin_flow : list hh_flow_row;
    population : list population_row;
    hh_llin_stock : list hh_stock_row;
    llin_coverage : list coverage_row }.

(** a country-year key and the per-key dict of named fields *)
Abbreviation key := (string * Z)%type.
Abbreviation fields := (gmap string R).
Abbreviation data_dict := (gmap (string * Z) (gmap string R)).

(** ** Pure helpers on dicts *)

(** [d[f]] *)
Definition getitem (d : fields) (f : string) : res R :=
  match d !! f with
  | Some v => Ok v
  | None => Raise KeyError
  end.

(** [if not data_dict.has_key(key): data_dict[key] = {}] *)
Definition ensure_key (k : key) (dd : data_dict) : data_dict :=
  match dd !! k with
  | Some _ => dd
  | None => <[k := ∅]> dd
  end.

(** [data_dict[key][f] = v] *)
Definition setfield (k : key) (f : string) (v : R) (dd : data_dict)
  : res data_dict :=
  match dd !! k with
  | Some d => Ok (<[k := <[f := v]> d]> dd)
  | None => Raise KeyError
  end.

(** [data_dict[key][f]] *)
Definition getfield (k : key) (f : string) (dd : data_dict) : res R :=
  match dd !! k with
  | Some d => getitem d f
  | None => Raise KeyError
  end.

(** [for key in data_dict.keys(): if len(data_dict[key]) != n: data_dict.pop(key)] *)
Definition keep_complete (n : nat) (dd : data_dict) : data_dict :=
  filter (λ kd, size kd.2 = n) dd.

(** a loop whose body may raise *)
Fixpoint foldM {A S} (body : S → A → res S) (s : S) (l : list A) : res S :=
  match l with
  | [] => Ok s
  | a :: l' => rbind (body s a) (λ s', foldM body s' l')
  end.

Definition fname_reten : string := "emp_prior_reten.json".
Definition fname_admin : string := "emp_prior_admin.json".
Definition fname_cov : string := "emp_prior_cov.json".

(** ** Model construction of [llin_discard_rate] *)

Definition name_pi : string := "Pr[net is lost]".
Definition name_sigma_reten : string := "standard error".

(** ['retention_%s_%s' % (d['Name'], d['Year'])] *)
Definition retention_name (d : retention_row) : string :=
  "retention_" +:+ rt_Name d +:+ "_" +:+ pretty (rt_Year d).

(** the body of [obs]:
    [normal_like(value, (1. - pi) ** T_i, 1. / sigma**2)] *)
Definition retention_logp (value T_i : R) (env : valuation) : res R :=
  let pi := env name_pi in
  let sigma := env name_sigma_reten in
  rbind (pypow (1 - pi) T_i) (λ m,
  rbind (pydiv 1 (sqr sigma)) (λ tau,
  Ok (normal_like value m tau))).

Definition retention_obs_node (d : retention_row) : node :=
  Observed (retention_name d) (rt_Retention_Rate d)
           (retention_logp (rt_Retention_Rate d) (rt_Follow_up_Time d)).

(** An entry of the Python list [vars]: a node, or a reference to the one
    list object [retention_obs], which the loop appends again and again
    ([vars += [retention_obs]]). *)
Inductive var_ref : Type :=
| VNode (n : node)
| VRetentionObs.

(** one iteration of [for d in data.retention] on [(retention_obs, vars)] *)
Definition retention_step (s : list node * list var_ref) (d : retention_row)
  : list node * list var_ref :=
  (s.1 ++ [retention_obs_node d], s.2 ++ [VRetentionObs]).

(** what [MCMC(vars)] sees: every reference is read when the loop is over *)
Definition deref (retention_obs : list node) (v : var_ref) : node :=
  match v with
  | VNode n => n
  | VRetentionObs => Container retention_obs
  end.

Definition llin_vars (rows : list retention_row) : list node :=
  let pi := Stochastic name_pi (Beta 1 2) in
  let sigma := Stochastic name_sigma_reten (InverseGamma 11 1) in
  let s := fold_left retention_step rows ([], [VNode pi; VNode sigma]) in
  deref s.1 <$> s.2.

(** [dict(alpha=x*(x*(1-x)/v-1), beta=(1-x)*(x*(1-x)/v-1))] *)
Definition beta_moments (x v : R) : res (R * R) :=
  rbind (pydiv (x * (1 - x)) v) (λ q1,
  rbind (pydiv (x * (1 - x)) v) (λ q2,
  Ok (x * (q1 - 1), (1 - x) * (q2 - 1)))).

Definition reten_dict (ab : R * R) : json :=
  jdict2 "alpha" (JNum ab.1) "beta" (JNum ab.2).

(** ** Model construction of [admin_err_and_bias] *)

Definition name_sigma_admin : string := "error in admin dist data".
Definition name_eps : string := "bias in admin dist data".

(** [for d in data.admin_llin] *)
Definition admin_step (dd : data_dict) (d : admin_row) : res data_dict :=
  let k := (ad_Country d, ad_Year d) in
  setfield k "obs" (ad_Program_LLINs d) (ensure_key k dd).

(** [for d in data.hh_llin_flow] *)
Definition hh_flow_step (mu_pi : R) (dd : data_dict) (d : hh_flow_row)
  : res data_dict :=
  let k := (hf_Country d, hf_Year d) in
  let dd := ensure_key k dd in
  let time := hf_mean_survey_date d - (IZR (hf_Year d) + 5/10) in
  rbind (setfield k "time" time dd) (λ dd,
  rbind (getfield k "time" dd) (λ t,
  rbind (pypow (1 - mu_pi) t) (λ p,
  rbind (pydiv (hf_Total_LLINs d) p) (λ truth,
  rbind (setfield k "truth" truth dd) (λ dd,
  setfield k "se" (hf_Total_st d) dd))))).

(** the three steps up to and including the filter on [len(...) != 4] *)
Definition admin_data_dict (mu_pi : R) (D : data_module) : res data_dict :=
  rbind (foldM admin_step ∅ (admin_llin D)) (λ dd,
  rbind (foldM (hh_flow_step mu_pi) dd (hh_llin_flow D)) (λ dd,
  Ok (keep_complete 4 dd))).

(** the body of [obs]:
    [normal_like(value, log_truth + eps, 1. / (log_v + sigma**2))] *)
Definition admin_logp (value log_truth log_v : R) (env : valuation) : res R :=
  let eps := env name_eps in
  let sigma := env name_sigma_admin in
  rbind (pydiv 1 (log_v + sqr sigma)) (λ tau,
  Ok (normal_like value (log_truth + eps) tau)).

(** the defaults of [obs] are evaluated when the node is declared:
    [value=log(d['obs']), log_truth=log(d['truth']),
     log_v=1.1*d['se']**2/d['truth']**2] *)
Definition admin_obs_node (d : fields) : res node :=
  rbind (getitem d "obs") (λ obs,
  rbind (getitem d "truth") (λ truth,
  rbind (getitem d "se") (λ se,
  rbind (getitem d "truth") (λ truth',
  rbind (pydiv (11/10 * sqr se) (sqr truth')) (λ log_v,
  Ok (Observed "obs" (ln obs) (admin_logp (ln obs) (ln truth) log_v))))))).

(** Python 2 fixes no order for [data_dict.values()]; the embedding takes the
    order of [map_to_list]. *)
Definition admin_vars (dd : data_dict) : res (list node) :=
  let sigma := Stochastic name_sigma_admin (InverseGamma 11 1) in
  let eps := Stochastic name_eps (Normal 0 1) in
  foldM (λ vars kd, rbind (admin_obs_node kd.2) (λ obs, Ok (vars ++ [obs])))
        [sigma; eps] (map_to_list dd).

(** [dict(mu=s.stats()['mean'], tau=s.stats()['standard deviation']**-2)] *)
Definition mu_tau (s : stats) : res json :=
  rbind (pow_m2 (standard_deviation s)) (λ tau,
  Ok (jdict2 "mu" (JNum (mean s)) "tau" (JNum tau))).

(** ** Model construction of [cov_and_zif_fac] *)

Definition name_e : string := "coverage factor".
Definition name_z : string := "zero inflation factor".

(** [for d in data.population] *)
Definition population_step (dd : data_dict) (d : population_row)
  : res data_dict :=
  let k := (pp_Country d, pp_Year d) in
  setfield k "pop" (pp_Pop d * 1000) (<[k := ∅]> dd).

(** [for d in data.hh_llin_stock] *)
Definition hh_stock_step (dd : data_dict) (d : hh_stock_row) : res data_dict :=
  let k := (hs_Country d, hs_Survey_Year2 d) in
  rbind (getfield k "pop" dd) (λ pop,
  rbind (pydiv (hs_SvyIndex_LLINstotal d) pop) (λ stock,
  rbind (setfield k "stock" stock dd) (λ dd,
  rbind (getfield k "pop" dd) (λ pop',
  rbind (pydiv (hs_SvyIndex_st d) pop') (λ stock_se,
  setfield k "stock_se" stock_se dd))))).

(** [for d in data.llin_coverage] *)
Definition coverage_step (dd : data_dict) (d : coverage_row) : res data_dict :=
  let k := (cv_Country d, cv_Survey_Year2 d) in
  rbind (setfield k "uncovered" (cv_Per_0LLINs d) dd) (λ dd,
  setfield k "se" (cv_LLINs0_SE d) dd).

(** the three loops and the filter on [len(...) != 5] *)
Definition cov_data_dict (D : data_module) : res data_dict :=
  rbind (foldM population_step ∅ (population D)) (λ dd,
  rbind (foldM hh_stock_step dd (hh_llin_stock D)) (λ dd,
  rbind (foldM coverage_step dd (llin_coverage D)) (λ dd,
  Ok (keep_complete 5 dd)))).

(** ['stock_%s_%s' % k] *)
Definition stock_name (k : key) : string :=
  "stock_" +:+ k.1 +:+ "_" +:+ pretty k.2.

(** the body of [obs]:
    [normal_like(value, z + (1-z) * exp(-e * stock), tau)] *)
Definition cov_logp (value : R) (stock : string) (tau : R) (env : valuation)
  : res R :=
  let e := env name_e in
  let z := env name_z in
  Ok (normal_like value (z + (1 - z) * exp (- e * env stock)) tau).

(** one iteration of [for k, d in data_dict.items()]: the latent stock and
    the observed node *)
Definition cov_nodes (k : key) (d : fields) : res (list node) :=
  rbind (getitem d "stock") (λ stock_mu,
  rbind (getitem d "stock_se") (λ stock_se,
  rbind (pow_m2 stock_se) (λ stock_tau,
  let stock := Stochastic (stock_name k) (Normal stock_mu stock_tau) in
  rbind (getitem d "uncovered") (λ value,
  rbind (getitem d "se") (λ se,
  rbind (pow_m2 se) (λ tau,
  Ok [stock; Observed "obs" value (cov_logp value (stock_name k) tau)])))))).

Definition cov_vars (dd : data_dict) : res (list node) :=
  let e := Stochastic name_e (Normal 5 3) in
  let z := Stochastic name_z (Beta 1 10) in
  foldM (λ vars kd, rbind (cov_nodes kd.1 kd.2) (λ so, Ok (vars ++ so)))
        [e; z] (map_to_list dd).

(** ** The world and the estimators *)

(** The collaborators outside the module: what a cache file holds with
    simplejson's [load] and [dump], the [data] module, and the sampler.
    [mcmc n vars iter burn thin] stands for
    [MCMC(vars).sample(iter, burn, thin)] followed by [stats()]: the posterior
    summaries by variable name, or a fault; [n] is the number of sampler runs
    so far, standing for the state of the random number generator. *)
Record externals : Type :=
  { content : Type;
    json_load : content → res json;
    json_dump : json → content;
    data : data_module;
    mcmc : nat → list node → Z → Z → Z → res posterior }.

Section Estimators.

Variable X : externals.

(** [cache_dir] is the directory [settings.PATH], [None] when it does not
    exist; [settings.PATH] is taken to end with the path separator, so that
    [settings.PATH + fname] names a file of that directory. *)
Record world : Type :=
  { cache_dir : option (gmap string (content X));
    sampled : list sample_call;
    stdout : list output }.

Definition M (A : Type) : Type := world → world * res A.

Definition ret {A} (a : A) : M A := λ w, (w, Ok a).
Definition bind {A B} (m : M A) (k : A → M B) : M B :=
  λ w, match m w with
       | (w', inl e) => (w', inl e)
       | (w', inr a) => k a w'
       end.
Definition lift {A} (r : res A) : M A := λ w, (w, r).

Notation "'do' x <- m ; k" := (bind m (λ x, k))
  (at level 10, x name, m at level 100, k at level 200, only parsing).
Notation "'do' ' p <- m ; k" := (bind m (λ x, match x with p => k end))
  (at level 10, p pattern, m at level 100, k at level 200, only parsing).

(** [fname in os.listdir(settings.PATH)] *)
Definition in_listdir (fname : string) : M bool :=
  λ w, match cache_dir w with
       | None => (w, Raise OSError)
       | Some d => (w, Ok (bool_decide (is_Some (d !! fname))))
       end.

(** [json.load(open(settings.PATH + fname))] *)
Definition load_cache (fname : string) : M json :=
  λ w, match cache_dir w with
       | None => (w, Raise OSError)
       | Some d => match d !! fname with
                   | None => (w, Raise OSError)
                   | Some c => (w, json_load X c)
                   end
       end.

(** [json.dump(v, open(settings.PATH + fname, 'w'))] *)
Definition dump_cache (fname : string) (v : json) : M unit :=
  λ w, match cache_dir w with
       | None => (w, Raise OSError)
       | Some d =>
           ({| cache_dir := Some (<[fname := json_dump X v]> d);
               sampled := sampled w; stdout := stdout w |}, Ok tt)
       end.

Definition print (o : output) : M unit :=
  λ w, ({| cache_dir := cache_dir w; sampled := sampled w;
           stdout := stdout w ++ [o] |}, Ok tt).

(** [mc = MCMC(vars); mc.sample(iter, burn, thin)] *)
Definition MCMC_sample (vars : list node) (iter burn thin : Z)
  : M posterior :=
  λ w, ({| cache_dir := cache_dir w;
           sampled := sampled w ++
             [{| sc_vars := vars; sc_iter := iter;
                 sc_burn := burn; sc_thin := thin |}];
           stdout := stdout w |},
        mcmc X (length (sampled w)) vars iter burn thin).

(** the file [fname] of the cache directory, if any *)
Definition cache_file (fname : string) (w : world) : option (content X) :=
  cache_dir w ≫= (.!! fname).

Definition llin_discard_rate (recompute : bool) : M json :=
  let fname := fname_reten in
  do cached <- in_listdir fname;
  if cached && negb recompute then load_cache fname
  else
    let vars := llin_vars (retention (data X)) in
    let iter := 10000%Z in
    let thin := 20%Z in
    let burn := 20000%Z in
    do mc <- MCMC_sample vars (iter * thin + burn)%Z burn thin;
    let x := mean (mc name_pi) in
    let v := sqr (standard_deviation (mc name_pi)) in
    do sd <- lift (pypow v (5/10));
    do _ <- print (OutMeanStd x sd);
    do ab <- lift (beta_moments x v);
    let emp_prior_dict := reten_dict ab in
    do _ <- dump_cache fname emp_prior_dict;
    ret emp_prior_dict.

Definition admin_err_and_bias (recompute : bool) : M json :=
  let fname := fname_admin in
  do cached <- in_listdir fname;
  if cached && negb recompute then load_cache fname
  else
    do discard_prior <- llin_discard_rate false;
    do a <- lift (rbind (jget discard_prior "alpha") jnum);
    do a' <- lift (rbind (jget discard_prior "alpha") jnum);
    do b <- lift (rbind (jget discard_prior "beta") jnum);
    do mu_pi <- lift (pydiv a (a' + b));
    do dd <- lift (admin_data_dict mu_pi (data X));
    do vars <- lift (admin_vars dd);
    let iter := 10000%Z in
    let thin := 20%Z in
    let burn := 20000%Z in
    do mc <- MCMC_sample vars (iter * thin + burn)%Z burn thin;
    do sigma <- lift (mu_tau (mc name_sigma_admin));
    do eps <- lift (mu_tau (mc name_eps));
    let emp_prior_dict := jdict2 "sigma" sigma "eps" eps in
    do _ <- print (OutDict emp_prior_dict);
    do _ <- dump_cache fname emp_prior_dict;
    ret emp_prior_dict.

Definition cov_and_zif_fac (recompute : bool) : M json :=
  let fname := fname_cov in
  do cached <- in_listdir fname;
  if cached && negb recompute then load_cache fname
  else
    do dd <- lift (cov_data_dict (data X));
    do vars <- lift (cov_vars dd);
    let iter := 10000%Z in
    let thin := 20%Z in
    let burn := 20000%Z in
    do mc <- MCMC_sample vars (iter * thin + burn)%Z burn thin;
    do eta <- lift (mu_tau (mc name_e));
    do zeta <- lift (mu_tau (mc name_z));
    let emp_prior_dict := jdict2 "eta" eta "zeta" zeta in
    do _ <- print (OutDict emp_prior_dict);
    do _ <- dump_cache fname emp_prior_dict;
    ret emp_prior_dict.

(** The [__main__] block, from the positional arguments that
    [parser.parse_args()] returns; [parser.error] exits with status 2. *)
Definition main (args : list string) : M unit :=
  if negb (length args =? 0)%nat then lift (Raise (SystemExit 2))
  else
    do _ <- llin_discard_rate true;
    do _ <- admin_err_and_bias true;
    do _ <- cov_and_zif_fac true;
    ret tt.

End Estimators.

Arguments cache_dir {X} w.
Arguments sampled {X} w.
Arguments stdout {X} w.
Arguments cache_file {X} fname w.

(** ** Vocabulary of the properties *)

(** the sampling schedule of the three procedures *)
Definition fixed_schedule (c : sample_call) : Prop :=
  sc_iter c = 220000%Z ∧ sc_burn c = 20000%Z ∧ sc_thin c = 20%Z.

(** draws kept by a call: the steps after burn-in, one in [thin] *)
Definition retained (c : sample_call) : Z :=
  ((sc_iter c - sc_burn c) / sc_thin c)%Z.

(** [w'] comes from [w] by sampler calls [new] alone, as far as the sampler
    log goes *)
Definition sampled_more {X} (w w' : world X) (new : list sample_call) : Prop :=
  sampled w' = sampled w ++ new.

(** mean and variance of the Beta distribution with shapes [a], [b] *)
Definition beta_mean (a b : R) : R := a / (a + b).
Definition beta_variance (a b : R) : R :=
  a * b / ((a + b) ^ 2 * (a + b + 1)).

(** the world after the sampler call and the [print] of a computing run of
    [llin_discard_rate] *)
Definition llin_sampled_world {X} (w : world X) (post : posterior) : world X :=
  {| cache_dir := cache_dir w;
     sampled := sampled w ++
       [{| sc_vars := llin_vars (retention (data X));
           sc_iter := 220000; sc_burn := 20000; sc_thin := 20 |}];
     stdout := stdout w ++
       [OutMeanStd (mean (post name_pi))
                   (sqrt (sqr (standard_deviation (post name_pi))))] |}.

(** a sampler call on the fixed schedule *)
Definition scheduled_call (vars : list node) : sample_call :=
  {| sc_vars := vars; sc_iter := 220000; sc_burn := 20000; sc_thin := 20 |}.

(** a node of the model: an entry of [vars], or a member of a list that is
    an entry of [vars] *)
Definition model_has (n : node) (vars : list node) : Prop :=
  n ∈ vars ∨ ∃ l, Container l ∈ vars ∧ n ∈ l.

(** the field names present under each key *)
Definition shape (dd : data_dict) : gmap key (gset string) := dom <$> dd.

(** what a loop body does to the shape: the fields [F] are added under [k],
    which is created when missing *)
Definition add_fields (F : gset string) (sh : gmap key (gset string))
    (k : key) : gmap key (gset string) :=
  <[k := F ∪ default ∅ (sh !! k)]> sh.

(** [time] of a household row: [d['mean_survey_date'] - (d['Year'] + .5)] *)
Definition hh_time (d : hh_flow_row) : R :=
  hf_mean_survey_date d - (IZR (hf_Year d) + 5/10).

(** the field names of a complete record in each join *)
Definition admin_fields : gset string :=
  {["se"]} ∪ ({["truth"]} ∪ ({["time"]} ∪ {["obs"]})).
Definition cov_fields : gset string :=
  {["se"]} ∪ ({["uncovered"]} ∪ ({["stock_se"]} ∪ ({["stock"]} ∪ {["pop"]}))).



(** Where the fields under key [k] come from while the coverage join runs:
    ["pop"] is a thousand times the population of a population row of that
    key; ["stock_se"] and ["stock"] are the two figures of one stock row of
    that key divided by ["pop"], which is not zero; ["se"] and ["uncovered"]
    are the two figures of one coverage row of that key. *)
Definition cov_partial (D : data_module) (k : key) (d : fields) : Prop :=
  (∃ rp, rp ∈ population D ∧ (pp_Country rp, pp_Year rp) = k ∧
         d !! "pop" = Some (pp_Pop rp * 1000)) ∧
  (∀ v, d !! "stock_se" = Some v →
        ∃ rs pop, rs ∈ hh_llin_stock D ∧
                  (hs_Country rs, hs_Survey_Year2 rs) = k ∧
                  d !! "pop" = Some pop ∧ pop ≠ 0 ∧
                  d !! "stock" = Some (hs_SvyIndex_LLINstotal rs / pop) ∧
                  v = hs_SvyIndex_st rs / pop) ∧
  (∀ v, d !! "se" = Some v →
        ∃ rc, rc ∈ llin_coverage D ∧
              (cv_Country rc, cv_Survey_Year2 rc) = k ∧
              v = cv_LLINs0_SE rc ∧
              d !! "uncovered" = Some (cv_Per_0LLINs rc)).

(** the keys of the input tables *)
Definition admin_keys (D : data_module) : list key :=
  (λ d, (ad_Country d, ad_Year d)) <$> admin_llin D.
Definition hh_flow_keys (D : data_module) : list key :=
  (λ d, (hf_Country d, hf_Year d)) <$> hh_llin_flow D.
Definition population_keys (D : data_module) : list key :=
  (λ d, (pp_Country d, pp_Year d)) <$> population D.
Definition hh_stock_keys (D : data_module) : list key :=
  (λ d, (hs_Country d, hs_Survey_Year2 d)) <$> hh_llin_stock D.
Definition coverage_keys (D : data_module) : list key :=
  (λ d, (cv_Country d, cv_Survey_Year2 d)) <$> llin_coverage D.

(** ** Sample inputs *)

Definition row_A : retention_row :=
  {| rt_Name := "A"; rt_Year := 2000;
     rt_Retention_Rate := 1/2; rt_Follow_up_Time := 1 |}.

(** [pi] at 1/2 and the standard error at 2 *)
Definition env_half_two : valuation :=
  λ n, if decide (n = name_sigma_reten) then 2 else 1/2.

Definition key_X : key := ("X", 2005%Z).


(** cache files hold JSON documents as they are; the sampler reports the
    given summaries for every variable *)
Definition sample_externals (D : data_module) (post : res posterior)
  : externals :=
  {| content := json; json_load := λ c, Ok c; json_dump := λ v, v;
     data := D; mcmc := λ _ _ _ _ _, post |}.

Definition data_empty : data_module :=
  {| retention := []; admin_llin := []; hh_llin_flow := [];
     population := []; hh_llin_stock := []; llin_coverage := [] |}.

(** one admin row and the household row of the same country-year *)
Definition admin_row_X : admin_row :=
  {| ad_Country := "X"; ad_Year := 2005; ad_Program_LLINs := 1000 |}.
Definition hh_row_X : hh_flow_row :=
  {| hf_Country := "X"; hf_Year := 2005; hf_mean_survey_date := 20055/10;
     hf_Total_LLINs := 1200; hf_Total_st := 50 |}.
Definition data_X : data_module :=
  {| retention := []; admin_llin := [admin_row_X];
     hh_llin_flow := [hh_row_X];
     population := []; hh_llin_stock := []; llin_coverage := [] |}.

(** the record of the join of [data_X] when the discard rate is 1/(1+2) *)
Definition truth_X : R :=
  1200 / Rpower (1 - 1 / (1 + 2)) (hh_time hh_row_X).
Definition fields_X : fields :=
  <["se" := 50]> (<["truth" := truth_X]>
    (<["time" := hh_time hh_row_X]> (<["obs" := 1000]> ∅))).
Definition node_X : node :=
  Observed "obs" (ln 1000)
    (admin_logp (ln 1000) (ln truth_X) (11/10 * sqr 50 / sqr truth_X)).

(** a country-year with a population, a stock and a coverage row *)
Definition data_cov : data_module :=
  {| retention := []; admin_llin := []; hh_llin_flow := [];
     population := [{| pp_Country := "X"; pp_Year := 2005; pp_Pop := 10 |}];
     hh_llin_stock :=
       [{| hs_Country := "X"; hs_Survey_Year2 := 2005;
           hs_SvyIndex_LLINstotal := 1200; hs_SvyIndex_st := 50 |}];
     llin_coverage :=
       [{| cv_Country := "X"; cv_Survey_Year2 := 2005;
           cv_Per_0LLINs := 4/10; cv_LLINs0_SE := 5/100 |}] |}.

(** the same summaries for every variable *)
Definition post_const (m sd : R) : posterior :=
  λ _, {| mean := m; standard_deviation := sd |}.

(** a cache directory that holds one file *)
Definition world_with (X : externals) (fname : string) (c : content X)
  : world X :=
  {| cache_dir := Some {[fname := c]}; sampled := []; stdout := [] |}.

(** no data, and a sampler that reports mean 1/3 and standard deviation 1 *)
Definition X_third : externals :=
  sample_externals data_empty (Ok (post_const (1/3) 1)).

(** what [llin_discard_rate] returns there, and the world it leaves *)
Definition result_third : json :=
  reten_dict (1/3 * (1/3 * (1 - 1/3) / sqr 1 - 1),
              (1 - 1/3) * (1/3 * (1 - 1/3) / sqr 1 - 1)).
Definition world_after_llin : world X_third :=
  {| cache_dir := Some (<[fname_reten := result_third]> ∅);
     sampled := [scheduled_call (llin_vars [])];
     stdout := [OutMeanStd (1/3) (sqrt (sqr 1))] |}.

(** the tables of [data_X] with the same sampler, and a world whose cache
    holds the discard-rate prior Beta(1, 2) *)
Definition X_admin : externals :=
  sample_externals data_X (Ok (post_const (1/3) 1)).
Definition world_prior_12 (X : externals) (c : content X) : world X :=
  world_with X fname_reten c.

(** a household row surveyed half a year after mid-year *)
Definition hh_row_late : hh_flow_row :=
  {| hf_Country := "X"; hf_Year := 2005; hf_mean_survey_date := 2006;
     hf_Total_LLINs := 1200; hf_Total_st := 50 |}.
Definition data_late : data_module :=
  {| retention := []; admin_llin := [admin_row_X];
     hh_llin_flow := [hh_row_late];
     population := []; hh_llin_stock := []; llin_coverage := [] |}.

(** two admin rows of the same country-year *)
Definition admin_row_old : admin_row :=
  {| ad_Country := "X"; ad_Year := 2005; ad_Program_LLINs := 700 |}.
Definition data_dup : data_module :=
  {| retention := []; admin_llin := [admin_row_old; admin_row_X];
     hh_llin_flow := [hh_row_X];
     population := []; hh_llin_stock := []; llin_coverage := [] |}.

(** the record of the join of [data_cov] and its two nodes *)
Definition fields_cov : fields :=
  <["se" := 5/100]> (<["uncovered" := 4/10]>
    (<["stock_se" := 50 / (10 * 1000)]>
      (<["stock" := 1200 / (10 * 1000)]> {["pop" := 10 * 1000]}))).
Definition vars_cov : list node :=
  [Stochastic name_e (Normal 5 3); Stochastic name_z (Beta 1 10);
   Stochastic (stock_name key_X)
     (Normal (1200 / (10 * 1000)) (/ (50 / (10 * 1000)) ^ 2));
   Observed "obs" (4/10)
     (cov_logp (4/10) (stock_name key_X) (/ (5/100) ^ 2))].


(** the cache files an estimator may write: its own, and for
    [admin_err_and_bias] that of the nested [llin_discard_rate()] *)
Definition written_by_llin : list string := [fname_reten].
Definition written_by_admin : list string := [fname_admin; fname_reten].
Definition written_by_cov : list string := [fname_cov].


(** an existing, empty cache directory; nothing sampled or printed yet *)
Definition fresh_world (X : externals) : world X :=
  {| cache_dir := Some ∅; sampled := []; stdout := [] |}.

(** ** Facts on the arithmetic *)

Lemma pydiv_ok x y : y ≠ 0 → pydiv x y = Ok (x / y).
Proof. intros Hy. unfold pydiv. by destruct (Req_dec_T y 0). Qed.

Lemma pydiv_zero x : pydiv x 0 = Raise ZeroDivisionError.
Proof. unfold pydiv. by destruct (Req_dec_T 0 0). Qed.

Lemma sqr_nonneg x : 0 <= sqr x.
Proof. unfold sqr. nra. Qed.

Lemma sqr_zero x : sqr x = 0 ↔ x = 0.
Proof. unfold sqr. split; intros; nra. Qed.

(** [v ** .5] of a non-negative float is its square root and never raises *)
Lemma pypow_half v : 0 <= v → pypow v (5/10) = Ok (sqrt v).
Proof.
  intros Hv. unfold pypow.
  destruct (Req_dec_T (5/10) 0) as [?|_]; [lra|].
  destruct (Rlt_dec 0 v) as [Hpos|Hn].
  - f_equal. replace (5/10) with (/2) by lra. by apply Rpower_sqrt.
  - assert (v = 0) as -> by lra.
    destruct (Req_dec_T 0 0) as [_|?]; [|lra].
    destruct (Rlt_dec (5/10) 0) as [?|_]; [lra|].
    by rewrite sqrt_0.
Qed.

Lemma ln_sqrt_half a : 0 < a → ln (sqrt a) = / 2 * ln a.
Proof.
  intros Ha. rewrite <- (Rpower_sqrt a Ha). unfold Rpower. by rewrite ln_exp.
Qed.

(** [normal_like] with precision [1 / var] is the normal log-density of
    variance [var] *)
Lemma normal_like_precision x m var :
  0 < var → normal_like x m (1 / var) = normal_logpdf m var x.
Proof.
  intros Hv. unfold normal_like, normal_logpdf.
  assert (0 < PI) as Hpi by apply PI_RGT_0.
  assert (0 < 2 * PI * var) as Ha by nra.
  rewrite ln_Rinv by (by apply sqrt_lt_R0).
  rewrite ln_sqrt_half by done.
  replace (1 / 2 * (1 / var) / PI) with (/ (2 * PI * var)) by (field; lra).
  rewrite ln_Rinv by done.
  field. lra.
Qed.

(** [x ** y] of a positive base is the real power and never raises *)
Lemma pypow_pos x y : 0 < x → pypow x y = Ok (Rpower x y).
Proof.
  intros Hx. unfold pypow.
  destruct (Req_dec_T y 0) as [->|_]; [by rewrite Rpower_O|].
  by destruct (Rlt_dec 0 x).
Qed.

(** ** Properties *)

Section Properties.

Variable X : externals.

Local Abbreviation llin := (llin_discard_rate X).
Local Abbreviation admin := (admin_err_and_bias X).
Local Abbreviation cov := (cov_and_zif_fac X).

Ltac run :=
  repeat (simplify_eq/=; try case_match).

(** *** Cache hit *)

Lemma cache_hit_step fname (w : world X) d c (rest : M X json) :
  cache_dir w = Some d → d !! fname = Some c →
  bind X (in_listdir X fname)
    (λ cached, if cached && negb false then load_cache X fname else rest) w
  = (w, json_load X c).
Proof.
  intros Hd Hc. unfold bind, in_listdir, load_cache. rewrite Hd.
  rewrite bool_decide_eq_true_2 by (rewrite Hc; eauto).
  simpl. rewrite Hd, Hc. by destruct (json_load X c).
Qed.

Lemma llin_cache_hit (w : world X) d c :
  cache_dir w = Some d → d !! fname_reten = Some c →
  llin false w = (w, json_load X c).
Proof. intros Hd Hc. by apply cache_hit_step with d. Qed.

(** C1: with the cache file present and [recompute] false, each estimator
    returns what [json.load] makes of that file and leaves the world as it
    was: nothing is added to the sampler log, nothing is written. *)
Theorem C1_cache_hit (w : world X) (d : gmap string (content X))
    (fname : string) (c : content X) (est : bool → M X json) :
  (fname, est) ∈ [(fname_reten, llin); (fname_admin, admin); (fname_cov, cov)] →
  cache_dir w = Some d →
  d !! fname = Some c →
  est false w = (w, json_load X c) ∧
  sampled (est false w).1 = sampled w.
Proof.
  intros Hin Hd Hc.
  assert (est false w = (w, json_load X c)) as ->; [|done].
  rewrite !elem_of_cons, elem_of_nil in Hin.
  destruct Hin as [?|[?|[?|[]]]]; simplify_eq;
    by apply cache_hit_step with d.
Qed.

(** *** What a run does to the world *)

Ltac unfold_ops :=
  unfold bind, in_listdir, load_cache, MCMC_sample, lift, print,
    dump_cache, ret in *.

Ltac log_done :=
  first
    [ exists []; split; [by rewrite app_nil_r |];
      split; [by constructor |]; split; [simpl; lia |];
      intros ->; intros; simplify_eq/=;
      rewrite ?andb_false_r in *; done
    | eexists [_]; split; [reflexivity |];
      split; [by repeat constructor |]; split; [simpl; lia |];
      intros; simpl; lia ].

Lemma llin_world recompute (w w' : world X) x :
  llin recompute w = (w', x) →
  (∀ f, f ≠ fname_reten → cache_file f w' = cache_file f w) ∧
  (∀ e, x = inl e → cache_dir w' = cache_dir w) ∧
  ∃ new, sampled_more w w' new ∧ Forall fixed_schedule new ∧
         (length new ≤ 1)%nat ∧
         (recompute = true → ∀ v, x = inr v → (1 ≤ length new)%nat).
Proof.
  unfold llin_discard_rate, sampled_more, cache_file. unfold_ops.
  intros H. run.
  all: repeat split; intros; simplify_eq/=; try done; try log_done.
  all: repeat match goal with
         | H : cache_dir _ = _ |- _ => rewrite H in *; clear H
         end; simpl in *; try done.
  all: try (by rewrite lookup_insert_ne).
Qed.

Lemma cov_world recompute (w w' : world X) x :
  cov recompute w = (w', x) →
  (∀ e, x = inl e → cache_dir w' = cache_dir w) ∧
  ∃ new, sampled_more w w' new ∧ Forall fixed_schedule new ∧
         (length new ≤ 1)%nat ∧
         (recompute = true → ∀ v, x = inr v → (1 ≤ length new)%nat).
Proof.
  unfold cov_and_zif_fac, sampled_more. unfold_ops.
  intros H. run.
  all: repeat split; intros; simplify_eq/=; try done; try log_done.
Qed.

Lemma admin_world recompute (w w' : world X) x :
  admin recompute w = (w', x) →
  (∀ e, x = inl e → cache_file fname_admin w' = cache_file fname_admin w) ∧
  ∃ new, sampled_more w w' new ∧ Forall fixed_schedule new ∧
         (length new ≤ 2)%nat ∧
         (recompute = true → ∀ v, x = inr v → (1 ≤ length new)%nat).
Proof.
  unfold admin_err_and_bias, sampled_more. unfold_ops.
  intros H.
  destruct (cache_dir w) as [d|] eqn:Hd; [|run; split; [done|log_done]].
  simpl in H.
  destruct (_ && negb recompute) eqn:Hc; [run; split; done || log_done|].
  destruct (llin false w) as [w1 x1] eqn:Hl.
  apply llin_world in Hl as (Hf & He & new1 & Hn1 & Hfx1 & Hlen1 & _).
  specialize (Hf fname_admin ltac:(done)).
  unfold cache_file in *.
  run.
  all: split; [intros; by simplify_eq/= |].
  all: first
    [ exists new1; split; [done |]; split; [done |]; split; [lia |]; done
    | eexists (new1 ++ [_]); simpl; rewrite Hn1, <- app_assoc;
      split; [reflexivity |];
      split; [apply Forall_app; split; [done | by repeat constructor] |];
      rewrite length_app; simpl; split; intros; lia ].
Qed.

(** *** Faults and the cache; the sampling schedule *)

(** C7: when a run of an estimator ends in a fault, the estimator's own
    cache file is what it was before the run (absent if it was absent):
    the file is written only as the last step, after sampling and
    summarisation have succeeded. *)
Theorem C7_fault_keeps_cache recompute (w w' : world X) (e : exn)
    (fname : string) (est : bool → M X json) :
  (fname, est) ∈ [(fname_reten, llin); (fname_admin, admin); (fname_cov, cov)] →
  est recompute w = (w', inl e) →
  cache_file fname w' = cache_file fname w.
Proof.
  intros Hin Hrun.
  rewrite !elem_of_cons, elem_of_nil in Hin.
  destruct Hin as [?|[?|[?|[]]]]; simplify_eq.
  - apply llin_world in Hrun as (_ & He & _).
    unfold cache_file. by rewrite (He e).
  - apply admin_world in Hrun as (He & _). by apply (He e).
  - apply cov_world in Hrun as (He & _).
    unfold cache_file. by rewrite (He e).
Qed.

Lemma fixed_schedule_retained c :
  fixed_schedule c →
  sc_iter c = 220000%Z ∧ sc_burn c = 20000%Z ∧ sc_thin c = 20%Z ∧
  retained c = 10000%Z.
Proof.
  unfold fixed_schedule, retained. intros (-> & -> & ->). done.
Qed.

(** C8: whatever [recompute] is and whatever the world, every sampler call
    that a run of an estimator adds to the log asks for 220000 steps with a
    burn-in of 20000 and a thinning of 20, which keeps 10000 draws; a run
    with [recompute] set that returns has made such a call. *)
Theorem C8_fixed_schedule recompute (w : world X) :
  Forall (λ est : bool → M X json,
    ∃ new, sampled_more w (est recompute w).1 new ∧
      Forall (λ c, sc_iter c = 220000%Z ∧ sc_burn c = 20000%Z ∧
                   sc_thin c = 20%Z ∧ retained c = 10000%Z) new ∧
      (recompute = true → ∀ v, (est recompute w).2 = inr v → new ≠ []))
    [llin; admin; cov].
Proof.
  repeat apply Forall_cons_2; [| | |constructor].
  - destruct (llin recompute w) as [w' x] eqn:H.
    apply llin_world in H as (_ & _ & new & ? & Hf & _ & Hn).
    exists new. split; [done|]. split.
    + eapply Forall_impl; [done | apply fixed_schedule_retained].
    + intros Hr v Hv. specialize (Hn Hr v Hv). intros ->. simpl in Hn. lia.
  - destruct (admin recompute w) as [w' x] eqn:H.
    apply admin_world in H as (_ & new & ? & Hf & _ & Hn).
    exists new. split; [done|]. split.
    + eapply Forall_impl; [done | apply fixed_schedule_retained].
    + intros Hr v Hv. specialize (Hn Hr v Hv). intros ->. simpl in Hn. lia.
  - destruct (cov recompute w) as [w' x] eqn:H.
    apply cov_world in H as (_ & new & ? & Hf & _ & Hn).
    exists new. split; [done|]. split.
    + eapply Forall_impl; [done | apply fixed_schedule_retained].
    + intros Hr v Hv. specialize (Hn Hr v Hv). intros ->. simpl in Hn. lia.
Qed.

(** *** The computing path of [llin_discard_rate] *)

Lemma llin_computes recompute (w : world X) d post :
  cache_dir w = Some d →
  recompute = true ∨ d !! fname_reten = None →
  mcmc X (length (sampled w)) (llin_vars (retention (data X)))
       220000 20000 20 = Ok post →
  llin recompute w =
    let x := mean (post name_pi) in
    let v := sqr (standard_deviation (post name_pi)) in
    let w1 := llin_sampled_world w post in
    match beta_moments x v with
    | inl e => (w1, inl e)
    | inr ab =>
        ({| cache_dir := Some (<[fname_reten := json_dump X (reten_dict ab)]> d);
            sampled := sampled w1; stdout := stdout w1 |},
         Ok (reten_dict ab))
    end.
Proof.
  intros Hd Hmiss Hpost.
  unfold llin_discard_rate. unfold_ops. rewrite Hd. simpl.
  assert (bool_decide (is_Some (d !! fname_reten)) && negb recompute = false)
    as ->.
  { destruct Hmiss as [->| ->]; [by rewrite andb_false_r|].
    rewrite bool_decide_eq_false_2; [done | by intros [? ?]]. }
  change (10000 * 20 + 20000)%Z with 220000%Z.
  rewrite Hpost. rewrite pypow_half by apply sqr_nonneg. simpl.
  unfold llin_sampled_world. rewrite !Hd.
  by destruct (beta_moments _ _).
Qed.


(** C10: with no retention records and no cache file, the model handed to
    the sampler is the two hyper-priors alone, sampled on the fixed
    schedule; when the sampler returns summaries with a non-zero variance
    for [pi], the run returns the moment-matched [{alpha, beta}] and the
    cache file holds its dump. *)
Theorem C10_empty_retention recompute (w : world X) d post :
  retention (data X) = [] →
  cache_dir w = Some d →
  d !! fname_reten = None →
  mcmc X (length (sampled w))
       [Stochastic name_pi (Beta 1 2);
        Stochastic name_sigma_reten (InverseGamma 11 1)]
       220000 20000 20 = Ok post →
  sqr (standard_deviation (post name_pi)) ≠ 0 →
  let x := mean (post name_pi) in
  let v := sqr (standard_deviation (post name_pi)) in
  let result :=
    reten_dict (x * (x * (1 - x) / v - 1), (1 - x) * (x * (1 - x) / v - 1)) in
  ∃ w', llin recompute w = (w', Ok result) ∧
        cache_file fname_reten w' = Some (json_dump X result) ∧
        sampled w' = sampled w ++
          [{| sc_vars := [Stochastic name_pi (Beta 1 2);
                          Stochastic name_sigma_reten (InverseGamma 11 1)];
              sc_iter := 220000; sc_burn := 20000; sc_thin := 20 |}].
Proof.
  intros Hempty Hd Hnone Hpost Hv x v result.
  assert (llin_vars (retention (data X)) =
          [Stochastic name_pi (Beta 1 2);
           Stochastic name_sigma_reten (InverseGamma 11 1)]) as Hvars.
  { by rewrite Hempty. }
  rewrite <- Hvars in Hpost.
  rewrite (llin_computes recompute w d post Hd (or_intror Hnone) Hpost).
  simpl. unfold beta_moments. rewrite !pydiv_ok by done. simpl.
  eexists. split; [reflexivity|]. split.
  - unfold cache_file. simpl. by rewrite lookup_insert_eq.
  - simpl. by rewrite Hvars.
Qed.

(** *** The computing paths of the other two estimators *)

Lemma pow_m2_ok x : x ≠ 0 → pow_m2 x = Ok (/ x ^ 2).
Proof. intros Hx. unfold pow_m2. by destruct (Req_dec_T x 0). Qed.

Lemma mu_tau_ok (s : stats) :
  standard_deviation s ≠ 0 →
  mu_tau s = Ok (jdict2 "mu" (JNum (mean s))
                        "tau" (JNum (/ standard_deviation s ^ 2))).
Proof. intros Hs. unfold mu_tau. by rewrite pow_m2_ok. Qed.

Lemma miss_condition (files : gmap string (content X)) fname recompute :
  recompute = true ∨ files !! fname = None →
  bool_decide (is_Some (files !! fname)) && negb recompute = false.
Proof.
  intros [->| ->]; [by rewrite andb_false_r|].
  rewrite bool_decide_eq_false_2; [done | by intros [? ?]].
Qed.

Lemma admin_computes recompute (w w1 : world X) files files1 prior a b
    dd vars post :
  cache_dir w = Some files →
  recompute = true ∨ files !! fname_admin = None →
  llin false w = (w1, Ok prior) →
  cache_dir w1 = Some files1 →
  jget prior "alpha" = Ok (JNum a) →
  jget prior "beta" = Ok (JNum b) →
  a + b ≠ 0 →
  admin_data_dict (a / (a + b)) (data X) = Ok dd →
  admin_vars dd = Ok vars →
  mcmc X (length (sampled w1)) vars 220000 20000 20 = Ok post →
  standard_deviation (post name_sigma_admin) ≠ 0 →
  standard_deviation (post name_eps) ≠ 0 →
  ∃ result,
    admin recompute w =
    ({| cache_dir := Some (<[fname_admin := json_dump X result]> files1);
        sampled := sampled w1 ++ [scheduled_call vars];
        stdout := stdout w1 ++ [OutDict result] |}, Ok result).
Proof.
  intros Hd Hmiss Hl Hd1 Ha Hb Hab Hdd Hvars Hpost Hs He.
  unfold admin_err_and_bias, bind, in_listdir. rewrite Hd.
  rewrite miss_condition by done.
  rewrite Hl. unfold lift. rewrite Ha, Hb. cbn [rbind jnum].
  rewrite pydiv_ok by done. rewrite Hdd, Hvars.
  unfold MCMC_sample.
  change (10000 * 20 + 20000)%Z with 220000%Z. rewrite Hpost.
  rewrite !mu_tau_ok by done.
  unfold print, dump_cache, ret. cbn [cache_dir]. rewrite Hd1.
  by eexists.
Qed.

Lemma cov_computes recompute (w : world X) files dd vars post :
  cache_dir w = Some files →
  recompute = true ∨ files !! fname_cov = None →
  cov_data_dict (data X) = Ok dd →
  cov_vars dd = Ok vars →
  mcmc X (length (sampled w)) vars 220000 20000 20 = Ok post →
  standard_deviation (post name_e) ≠ 0 →
  standard_deviation (post name_z) ≠ 0 →
  ∃ result,
    cov recompute w =
    ({| cache_dir := Some (<[fname_cov := json_dump X result]> files);
        sampled := sampled w ++ [scheduled_call vars];
        stdout := stdout w ++ [OutDict result] |}, Ok result).
Proof.
  intros Hd Hmiss Hdd Hvars Hpost Hs He.
  unfold cov_and_zif_fac, bind, in_listdir. rewrite Hd.
  rewrite miss_condition by done.
  unfold lift. rewrite Hdd, Hvars.
  unfold MCMC_sample.
  change (10000 * 20 + 20000)%Z with 220000%Z. rewrite Hpost.
  rewrite !mu_tau_ok by done.
  unfold print, dump_cache, ret. cbn [cache_dir]. rewrite Hd.
  by eexists.
Qed.

(** *** The command line *)





End Properties.

(** ** Moment matching *)

Lemma beta_variance_pos a b : 0 < a → 0 < b → 0 < beta_variance a b.
Proof.
  intros Ha Hb. unfold beta_variance.
  apply Rdiv_lt_0_compat; [nra|].
  apply Rmult_lt_0_compat; [|lra].
  apply pow_lt. lra.
Qed.

(** C5: for positive shapes, the method-of-moments formulas applied to the
    mean and the variance of Beta(alpha, beta) give back (alpha, beta). *)
Theorem C5_moment_matching_roundtrip (a b : R) :
  0 < a → 0 < b →
  beta_moments (beta_mean a b) (beta_variance a b) = Ok (a, b).
Proof.
  intros Ha Hb.
  pose proof (beta_variance_pos a b Ha Hb) as Hv.
  unfold beta_moments.
  rewrite pydiv_ok by lra. simpl.
  f_equal. unfold beta_mean, beta_variance.
  f_equal; field; repeat split; lra.
Qed.

(** ** The likelihood of [llin_discard_rate] *)

Lemma retention_loop rows obs vars :
  fold_left retention_step rows (obs, vars) =
  (obs ++ (retention_obs_node <$> rows),
   vars ++ replicate (length rows) VRetentionObs).
Proof.
  revert obs vars. induction rows as [|d rows IH]; intros obs vars; simpl.
  - by rewrite !app_nil_r.
  - unfold retention_step at 2. simpl. rewrite IH.
    by rewrite <- !app_assoc.
Qed.

(** [vars] is the two hyper-priors followed by one reference per record, all
    of them to the complete list of observed nodes *)
Lemma llin_vars_shape rows :
  llin_vars rows =
  [Stochastic name_pi (Beta 1 2);
   Stochastic name_sigma_reten (InverseGamma 11 1)] ++
  replicate (length rows) (Container (retention_obs_node <$> rows)).
Proof.
  unfold llin_vars. rewrite retention_loop. simpl. do 2 f_equal.
  generalize (retention_obs_node <$> rows). intros obs.
  induction (length rows) as [|n IH]; simpl; [done | by rewrite IH].
Qed.

Lemma retention_logp_normal value T_i (env : valuation) :
  env name_pi < 1 → env name_sigma_reten ≠ 0 →
  retention_logp value T_i env =
  Ok (normal_like value (Rpower (1 - env name_pi) T_i)
                  (1 / env name_sigma_reten ^ 2)).
Proof.
  intros Hpi Hs. unfold retention_logp.
  rewrite pypow_pos by lra. simpl.
  rewrite pydiv_ok by (by rewrite sqr_zero). done.
Qed.

(** C2, as the code has it: every retention record has its observed node in
    the model, with the record's retention rate as value; for [pi] below 1
    and a non-zero [sigma] the node's log-likelihood is that of a normal
    distribution around (1 - pi)^T whose precision is 1/sigma^2, that is,
    whose variance is sigma^2. *)
Theorem C2_retention_likelihood (rows : list retention_row)
    (d : retention_row) :
  d ∈ rows →
  ∃ logp,
    model_has (Observed (retention_name d) (rt_Retention_Rate d) logp)
              (llin_vars rows) ∧
    ∀ env : valuation,
      env name_pi < 1 → env name_sigma_reten ≠ 0 →
      logp env =
      Ok (normal_logpdf (Rpower (1 - env name_pi) (rt_Follow_up_Time d))
                        (env name_sigma_reten ^ 2)
                        (rt_Retention_Rate d)).
Proof.
  intros Hd.
  exists (retention_logp (rt_Retention_Rate d) (rt_Follow_up_Time d)). split.
  - right. exists (retention_obs_node <$> rows). split.
    + rewrite llin_vars_shape. apply elem_of_app. right.
      destruct rows as [|d' rows]; [by apply elem_of_nil in Hd|].
      simpl. by left.
    + apply (list_elem_of_fmap_2 retention_obs_node) in Hd. exact Hd.
  - intros env Hpi Hs.
    rewrite retention_logp_normal by done. f_equal.
    apply normal_like_precision.
    destruct (Rtotal_order (env name_sigma_reten) 0) as [?|[?|?]]; nra.
Qed.

(** C2 as stated fails: for the record [row_A], with [pi] at 1/2 and [sigma]
    at 2, the node of the model does not have the log-likelihood of a normal
    distribution of variance 1/sigma^2. *)
Lemma C2_variance_counterexample :
  ∃ logp,
    model_has (Observed (retention_name row_A) (rt_Retention_Rate row_A) logp)
              (llin_vars [row_A]) ∧
    env_half_two name_pi < 1 ∧ 0 < env_half_two name_sigma_reten ∧
    logp env_half_two ≠
    Ok (normal_logpdf
          (Rpower (1 - env_half_two name_pi) (rt_Follow_up_Time row_A))
          (1 / env_half_two name_sigma_reten ^ 2)
          (rt_Retention_Rate row_A)).
Proof.
  assert (env_half_two name_pi = 1/2) as Hpi by done.
  assert (env_half_two name_sigma_reten = 2) as Hs by done.
  exists (retention_logp (rt_Retention_Rate row_A) (rt_Follow_up_Time row_A)).
  split.
  { right. exists [retention_obs_node row_A].
    rewrite llin_vars_shape. simpl. rewrite !elem_of_cons. auto. }
  rewrite Hpi, Hs. split; [lra|]. split; [lra|].
  rewrite retention_logp_normal by (rewrite ?Hpi, ?Hs; lra).
  rewrite Hpi, Hs. simpl.
  rewrite <- normal_like_precision by lra.
  rewrite Rpower_1 by lra.
  intros [= H]. revert H. unfold normal_like.
  replace (1 - 1 / 2) with (1/2) by lra.
  replace ((1/2 - 1/2) ^ 2) with 0 by lra.
  rewrite !Rmult_0_r, !Rplus_0_l. intros H.
  assert (0 < PI) as HPI by apply PI_RGT_0.
  apply Rmult_eq_reg_l in H; [|lra].
  apply ln_inv in H.
  - apply (f_equal (Rmult PI)) in H. field_simplify in H; lra.
  - apply Rdiv_lt_0_compat; lra.
  - apply Rdiv_lt_0_compat; [|lra].
    apply Rmult_lt_0_compat; [lra|]. apply Rdiv_lt_0_compat; [lra|].
    apply Rdiv_lt_0_compat; lra.
Qed.

(** ** The joins *)

Section Shapes.

Implicit Types (dd : data_dict) (sh : gmap key (gset string)) (k : key).

Lemma shape_lookup dd k : shape dd !! k = dom <$> (dd !! k).
Proof. unfold shape. by rewrite lookup_fmap. Qed.

Lemma add_fields_lookup F sh k k' :
  add_fields F sh k !! k' =
  if decide (k = k') then Some (F ∪ default ∅ (sh !! k)) else sh !! k'.
Proof. unfold add_fields. apply lookup_insert. Qed.

Lemma foldl_add_fields_lookup F ks sh k :
  foldl (add_fields F) sh ks !! k =
  if decide (k ∈ ks) then Some (F ∪ default ∅ (sh !! k)) else sh !! k.
Proof.
  revert sh. induction ks as [|k0 ks IH]; intros sh.
  - destruct (decide (k ∈ [])) as [Hin|_]; [|done].
    by apply elem_of_nil in Hin.
  - cbn [foldl]. rewrite IH, add_fields_lookup.
    destruct (decide (k ∈ k0 :: ks)) as [Hin|Hnin];
      destruct (decide (k ∈ ks)) as [Hin'|Hnin'];
      destruct (decide (k0 = k)) as [->|Hne]; simpl; try done.
    + by rewrite (assoc_L (∪)), (idemp_L (∪)).
    + apply elem_of_cons in Hin as [->|?]; done.
    + exfalso. apply Hnin. rewrite elem_of_cons. auto.
    + exfalso. apply Hnin. rewrite elem_of_cons. auto.
    + exfalso. apply Hnin. rewrite elem_of_cons. auto.
Qed.

Lemma foldM_shape {A} (step : data_dict → A → res data_dict)
    (keyof : A → key) F :
  (∀ dd d dd', step dd d = Ok dd' →
               shape dd' = add_fields F (shape dd) (keyof d)) →
  ∀ l dd dd', foldM step dd l = Ok dd' →
              shape dd' = foldl (add_fields F) (shape dd) (keyof <$> l).
Proof.
  intros Hstep l. induction l as [|a l IH]; intros dd dd' H; simpl in *.
  - by injection H as <-.
  - destruct (step dd a) as [e|dd1] eqn:H1; [done|]. simpl in H.
    rewrite <- (Hstep _ _ _ H1). by apply IH.
Qed.

Lemma shape_insert dd k (d : fields) :
  shape (<[k := d]> dd) = <[k := dom d]> (shape dd).
Proof. unfold shape. by rewrite fmap_insert. Qed.

Lemma dom_default dd k :
  dom (default (∅ : fields) (dd !! k)) = default ∅ (shape dd !! k).
Proof.
  rewrite shape_lookup. destruct (dd !! k); simpl; [done|].
  by rewrite dom_empty_L.
Qed.

(** *** The loop bodies in closed form *)

Lemma admin_step_eq dd (d : admin_row) :
  admin_step dd d =
  let k := (ad_Country d, ad_Year d) in
  Ok (<[k := <["obs" := ad_Program_LLINs d]> (default ∅ (dd !! k))]> dd).
Proof.
  unfold admin_step, setfield, ensure_key.
  destruct (dd !! _) as [d0|] eqn:Hk; simpl.
  - by rewrite Hk.
  - by rewrite lookup_insert_eq, insert_insert_eq.
Qed.

Lemma hh_flow_step_eq mu_pi dd (d : hh_flow_row) :
  hh_flow_step mu_pi dd d =
  let k := (hf_Country d, hf_Year d) in
  rbind (pypow (1 - mu_pi) (hh_time d)) (λ p,
  rbind (pydiv (hf_Total_LLINs d) p) (λ truth,
  Ok (<[k := <["se" := hf_Total_st d]>
               (<["truth" := truth]>
                 (<["time" := hh_time d]> (default ∅ (dd !! k))))]> dd))).
Proof.
  unfold hh_flow_step, hh_time. cbv zeta.
  set (k := (hf_Country d, hf_Year d)).
  set (t := hf_mean_survey_date d - _).
  assert (∃ d0, ensure_key k dd !! k = Some d0 ∧ d0 = default ∅ (dd !! k) ∧
                ∀ d1, <[k := d1]> (ensure_key k dd) = <[k := d1]> dd)
    as (d0 & Hk & -> & Hins).
  { unfold ensure_key. destruct (dd !! k) as [d0|] eqn:Hk.
    - exists d0. by rewrite Hk.
    - exists ∅. rewrite lookup_insert_eq. repeat split.
      intros d1. by rewrite insert_insert_eq. }
  unfold setfield at 1. rewrite Hk. cbn [rbind].
  unfold getfield, getitem. rewrite !lookup_insert_eq. cbn [rbind].
  destruct (pypow (1 - mu_pi) t) as [e|p]; [done|]. cbn [rbind].
  destruct (pydiv (hf_Total_LLINs d) p) as [e|truth]; [done|]. cbn [rbind].
  unfold setfield. rewrite !lookup_insert_eq. cbn [rbind].
  rewrite lookup_insert_eq. by rewrite !insert_insert_eq, Hins.
Qed.

Lemma population_step_eq dd (d : population_row) :
  population_step dd d =
  Ok (<[(pp_Country d, pp_Year d) := {["pop" := pp_Pop d * 1000]}]> dd).
Proof.
  unfold population_step, setfield.
  by rewrite lookup_insert_eq, insert_insert_eq, insert_empty.
Qed.

Lemma hh_stock_step_eq dd (d : hh_stock_row) :
  hh_stock_step dd d =
  let k := (hs_Country d, hs_Survey_Year2 d) in
  match dd !! k with
  | None => Raise KeyError
  | Some d0 =>
      match d0 !! "pop" with
      | None => Raise KeyError
      | Some pop =>
          rbind (pydiv (hs_SvyIndex_LLINstotal d) pop) (λ stock,
          rbind (pydiv (hs_SvyIndex_st d) pop) (λ stock_se,
          Ok (<[k := <["stock_se" := stock_se]>
                       (<["stock" := stock]> d0)]> dd)))
      end
  end.
Proof.
  unfold hh_stock_step. cbv zeta.
  set (k := (hs_Country d, hs_Survey_Year2 d)).
  unfold getfield at 1, getitem.
  destruct (dd !! k) as [d0|] eqn:Hk; [|done].
  destruct (d0 !! "pop") as [pop|] eqn:Hpop; [|done]. cbn [rbind].
  destruct (pydiv (hs_SvyIndex_LLINstotal d) pop) as [e|stock]; [done|].
  cbn [rbind]. unfold setfield at 1. rewrite Hk. cbn [rbind].
  unfold getfield, getitem. rewrite lookup_insert_eq.
  rewrite lookup_insert_ne by done. rewrite Hpop. cbn [rbind].
  destruct (pydiv (hs_SvyIndex_st d) pop) as [e|stock_se]; [done|].
  cbn [rbind]. unfold setfield. rewrite lookup_insert_eq.
  by rewrite insert_insert_eq.
Qed.

Lemma coverage_step_eq dd (d : coverage_row) :
  coverage_step dd d =
  let k := (cv_Country d, cv_Survey_Year2 d) in
  match dd !! k with
  | None => Raise KeyError
  | Some d0 =>
      Ok (<[k := <["se" := cv_LLINs0_SE d]>
                   (<["uncovered" := cv_Per_0LLINs d]> d0)]> dd)
  end.
Proof.
  unfold coverage_step. cbv zeta.
  set (k := (cv_Country d, cv_Survey_Year2 d)).
  unfold setfield at 1.
  destruct (dd !! k) as [d0|] eqn:Hk; [|done]. cbn [rbind].
  unfold setfield. rewrite lookup_insert_eq. by rewrite insert_insert_eq.
Qed.

(** *** What the loop bodies do to the shape *)

Lemma admin_step_shape dd (d : admin_row) dd' :
  admin_step dd d = Ok dd' →
  shape dd' = add_fields {["obs"]} (shape dd) (ad_Country d, ad_Year d).
Proof.
  rewrite admin_step_eq. intros [= <-].
  by rewrite shape_insert, dom_insert_L, dom_default.
Qed.

Lemma hh_flow_step_shape mu_pi dd (d : hh_flow_row) dd' :
  hh_flow_step mu_pi dd d = Ok dd' →
  shape dd' = add_fields ({["se"]} ∪ ({["truth"]} ∪ {["time"]}))
                         (shape dd) (hf_Country d, hf_Year d).
Proof.
  rewrite hh_flow_step_eq. cbv zeta.
  destruct (pypow _ _) as [e|p]; [done|]. cbn [rbind].
  destruct (pydiv _ _) as [e|truth]; [done|]. cbn [rbind].
  intros [= <-].
  rewrite shape_insert, !dom_insert_L, dom_default. unfold add_fields.
  by rewrite !(assoc_L (∪)).
Qed.


(** *** The filter and the admin join *)

Lemma keep_complete_lookup n dd k (d : fields) :
  keep_complete n dd !! k = Some d ↔ dd !! k = Some d ∧ size d = n.
Proof. unfold keep_complete. by rewrite map_lookup_filter_Some. Qed.

Lemma keep_complete_shape n dd k :
  is_Some (keep_complete n dd !! k) ↔
  ∃ S, shape dd !! k = Some S ∧ size S = n.
Proof.
  rewrite shape_lookup. split.
  - intros [d Hd]. apply keep_complete_lookup in Hd as [Hd Hn].
    exists (dom d). rewrite Hd. by rewrite size_dom.
  - intros (S & HS & Hn). destruct (dd !! k) as [d|] eqn:Hd; [|done].
    injection HS as <-. exists d. apply keep_complete_lookup.
    by rewrite <- size_dom.
Qed.

Lemma foldM_admin_step_ok l dd : ∃ dd', foldM admin_step dd l = Ok dd'.
Proof.
  revert dd. induction l as [|a l IH]; intros dd; simpl; [eauto|].
  rewrite admin_step_eq. cbv zeta. cbn [rbind]. apply IH.
Qed.


(** the shape before the filter of the admin join *)
Lemma admin_join_shape mu_pi D dd1 dd2 k :
  foldM admin_step ∅ (admin_llin D) = Ok dd1 →
  foldM (hh_flow_step mu_pi) dd1 (hh_llin_flow D) = Ok dd2 →
  shape dd2 !! k =
  if decide (k ∈ hh_flow_keys D)
  then Some (({["se"]} ∪ ({["truth"]} ∪ {["time"]})) ∪
             (if decide (k ∈ admin_keys D) then {["obs"]} ∪ ∅ else ∅))
  else if decide (k ∈ admin_keys D) then Some ({["obs"]} ∪ ∅) else None.
Proof.
  intros H1 H2.
  apply (foldM_shape _ (λ d, (ad_Country d, ad_Year d)) {["obs"]}) in H1;
    [|apply admin_step_shape].
  apply (foldM_shape _ (λ d, (hf_Country d, hf_Year d))
           ({["se"]} ∪ ({["truth"]} ∪ {["time"]}))) in H2;
    [|apply hh_flow_step_shape].
  rewrite H2, H1. rewrite !foldl_add_fields_lookup.
  unfold shape at 1 2. rewrite fmap_empty, lookup_empty.
  fold (admin_keys D) (hh_flow_keys D).
  by repeat case_decide.
Qed.

Lemma admin_join_keys mu_pi D dd k :
  admin_data_dict mu_pi D = Ok dd →
  (is_Some (dd !! k) ↔ k ∈ admin_keys D ∧ k ∈ hh_flow_keys D) ∧
  (∀ d, dd !! k = Some d → dom d = admin_fields).
Proof.
  unfold admin_data_dict.
  destruct (foldM admin_step _ _) as [e|dd1] eqn:H1; [done|]. cbn [rbind].
  destruct (foldM (hh_flow_step _) _ _) as [e|dd2] eqn:H2; [done|].
  cbn [rbind]. intros [= <-].
  pose proof (admin_join_shape mu_pi D dd1 dd2 k H1 H2) as Hsh.
  assert (∀ S, shape dd2 !! k = Some S → size S = 4%nat →
               (k ∈ admin_keys D ∧ k ∈ hh_flow_keys D) ∧ S = admin_fields)
    as Hfour.
  { intros S HS Hn. rewrite HS in Hsh.
    destruct (decide (k ∈ hh_flow_keys D));
      destruct (decide (k ∈ admin_keys D)); try discriminate Hsh.
    - split; [done|]. injection Hsh as ->. unfold admin_fields.
      by rewrite (right_id_L ∅ (∪)), !(assoc_L (∪)).
    - exfalso. injection Hsh as ->. revert Hn. vm_compute. lia.
    - exfalso. injection Hsh as ->. revert Hn. vm_compute. lia. }
  split; [rewrite keep_complete_shape; split|].
  - intros (S & HS & Hn). by apply (Hfour S).
  - intros [Ha Hh]. rewrite !decide_True in Hsh by done.
    eexists. split; [exact Hsh|]. by vm_compute.
  - intros d Hd. apply keep_complete_lookup in Hd as [Hd Hn].
    apply (Hfour (dom d)); [|by rewrite size_dom].
    by rewrite shape_lookup, Hd.
Qed.


(** *** The coverage join *)

Lemma population_fold l dd :
  ∃ dd', foldM population_step dd l = Ok dd' ∧
    ∀ k, shape dd' !! k =
         if decide (k ∈ (λ d, (pp_Country d, pp_Year d)) <$> l)
         then Some {["pop"]} else shape dd !! k.
Proof.
  revert dd. induction l as [|a l IH]; intros dd.
  - exists dd. split; [done|]. intros k.
    destruct (decide _) as [Hin|_]; [|done]. by apply elem_of_nil in Hin.
  - cbn [foldM]. rewrite population_step_eq. cbn [rbind].
    destruct (IH (<[(pp_Country a, pp_Year a) :=
                     {["pop" := pp_Pop a * 1000]}]> dd)) as (dd' & -> & Hsh).
    exists dd'. split; [done|]. intros k. rewrite Hsh, fmap_cons.
    rewrite shape_insert, dom_singleton_L, lookup_insert.
    destruct (decide (k ∈ _ <$> l)) as [Hin|Hnin].
    + rewrite decide_True; [done|]. rewrite elem_of_cons. auto.
    + destruct (decide ((pp_Country a, pp_Year a) = k)) as [<-|Hne].
      * rewrite decide_True; [done|]. rewrite elem_of_cons. auto.
      * rewrite decide_False; [done|]. rewrite elem_of_cons.
      by intros [?|?].
Qed.

Lemma hh_stock_step_shape dd (d : hh_stock_row) dd' :
  hh_stock_step dd d = Ok dd' →
  is_Some (shape dd !! (hs_Country d, hs_Survey_Year2 d)) ∧
  shape dd' = add_fields ({["stock_se"]} ∪ {["stock"]})
                         (shape dd) (hs_Country d, hs_Survey_Year2 d).
Proof.
  rewrite hh_stock_step_eq. cbv zeta. rewrite shape_lookup.
  destruct (dd !! _) as [d0|] eqn:Hk; [|done].
  destruct (d0 !! "pop") as [pop|]; [|done].
  destruct (pydiv _ _) as [e|stock]; [done|]. cbn [rbind].
  destruct (pydiv _ _) as [e|stock_se]; [done|]. cbn [rbind].
  intros [= <-]. split; [by eauto|].
  rewrite shape_insert, !dom_insert_L. unfold add_fields.
  rewrite shape_lookup, Hk. simpl. by rewrite !(assoc_L (∪)).
Qed.

Lemma coverage_step_shape dd (d : coverage_row) dd' :
  coverage_step dd d = Ok dd' →
  is_Some (shape dd !! (cv_Country d, cv_Survey_Year2 d)) ∧
  shape dd' = add_fields ({["se"]} ∪ {["uncovered"]})
                         (shape dd) (cv_Country d, cv_Survey_Year2 d).
Proof.
  rewrite coverage_step_eq. cbv zeta. rewrite shape_lookup.
  destruct (dd !! _) as [d0|] eqn:Hk; [|done].
  intros [= <-]. split; [by eauto|].
  rewrite shape_insert, !dom_insert_L. unfold add_fields.
  rewrite shape_lookup, Hk. simpl. by rewrite !(assoc_L (∪)).
Qed.

(** a loop that only writes under existing keys has met existing keys only *)
Lemma foldM_present {A} (step : data_dict → A → res data_dict)
    (keyof : A → key) F l dd dd' k :
  (∀ dd a dd', step dd a = Ok dd' →
     is_Some (shape dd !! keyof a) ∧
     shape dd' = add_fields F (shape dd) (keyof a)) →
  foldM step dd l = Ok dd' →
  k ∈ keyof <$> l → is_Some (shape dd !! k).
Proof.
  intros Hstep. revert dd. induction l as [|a l IH]; intros dd H Hin.
  - by apply elem_of_nil in Hin.
  - cbn [foldM] in H. destruct (step dd a) as [e|dd1] eqn:H1; [done|].
    cbn [rbind] in H. destruct (Hstep _ _ _ H1) as [Hk Hsh].
    rewrite fmap_cons in Hin. apply elem_of_cons in Hin as [->|Hin]; [done|].
    specialize (IH dd1 H Hin). rewrite Hsh, add_fields_lookup in IH.
    by destruct (decide (keyof a = k)) as [<-|].
Qed.

Lemma cov_join_keys D dd k :
  cov_data_dict D = Ok dd →
  (is_Some (dd !! k) ↔
     k ∈ population_keys D ∧ k ∈ hh_stock_keys D ∧ k ∈ coverage_keys D) ∧
  (∀ d, dd !! k = Some d → dom d = cov_fields) ∧
  (k ∈ hh_stock_keys D ∨ k ∈ coverage_keys D → k ∈ population_keys D).
Proof.
  unfold cov_data_dict.
  destruct (population_fold (population D) ∅) as (dd1 & -> & Hsh1).
  cbn [rbind].
  destruct (foldM hh_stock_step _ _) as [e|dd2] eqn:H2; [done|]. cbn [rbind].
  destruct (foldM coverage_step _ _) as [e|dd3] eqn:H3; [done|]. cbn [rbind].
  intros [= <-].
  fold (population_keys D) in Hsh1.
  assert (∀ k, shape dd1 !! k =
               if decide (k ∈ population_keys D) then Some {["pop"]} else None)
    as Hsh1'.
  { intros k'. rewrite Hsh1. unfold shape at 1.
    by rewrite fmap_empty, lookup_empty. }
  clear Hsh1.
  pose proof (foldM_present _ (λ d, (hs_Country d, hs_Survey_Year2 d)) _
                _ _ _ k hh_stock_step_shape H2) as Hp2.
  pose proof (foldM_present _ (λ d, (cv_Country d, cv_Survey_Year2 d)) _
                _ _ _ k coverage_step_shape H3) as Hp3.
  apply (foldM_shape _ (λ d, (hs_Country d, hs_Survey_Year2 d))
           ({["stock_se"]} ∪ {["stock"]})) in H2;
    [|intros ? ? ? H; by apply hh_stock_step_shape in H as [_ ?]].
  apply (foldM_shape _ (λ d, (cv_Country d, cv_Survey_Year2 d))
           ({["se"]} ∪ {["uncovered"]})) in H3;
    [|intros ? ? ? H; by apply coverage_step_shape in H as [_ ?]].
  fold (hh_stock_keys D) in H2, Hp2. fold (coverage_keys D) in H3, Hp3.
  assert (shape dd2 !! k =
          if decide (k ∈ hh_stock_keys D)
          then Some (({["stock_se"]} ∪ {["stock"]}) ∪
                     default ∅ (shape dd1 !! k))
          else shape dd1 !! k) as Hsh2.
  { by rewrite H2, foldl_add_fields_lookup. }
  assert (shape dd3 !! k =
          if decide (k ∈ coverage_keys D)
          then Some (({["se"]} ∪ {["uncovered"]}) ∪
                     default ∅ (shape dd2 !! k))
          else shape dd2 !! k) as Hsh3.
  { by rewrite H3, foldl_add_fields_lookup. }
  clear H2 H3.
  assert (k ∈ hh_stock_keys D → k ∈ population_keys D) as Hsp.
  { intros Hin. specialize (Hp2 Hin). rewrite Hsh1' in Hp2.
    destruct (decide (k ∈ population_keys D)); [done|].
    by destruct Hp2. }
  assert (k ∈ coverage_keys D → k ∈ population_keys D) as Hcp.
  { intros Hin. specialize (Hp3 Hin). rewrite Hsh2, Hsh1' in Hp3.
    destruct (decide (k ∈ hh_stock_keys D)); [by apply Hsp|].
    destruct (decide (k ∈ population_keys D)); [done|].
    by destruct Hp3. }
  rewrite Hsh2, Hsh1' in Hsh3. clear Hsh2 Hp2 Hp3.
  assert (∀ S, shape dd3 !! k = Some S → size S = 5%nat →
            (k ∈ population_keys D ∧ k ∈ hh_stock_keys D ∧
             k ∈ coverage_keys D) ∧ S = cov_fields) as Hfive.
  { intros S HS Hn. rewrite HS in Hsh3.
    destruct (decide (k ∈ coverage_keys D));
      destruct (decide (k ∈ hh_stock_keys D));
      destruct (decide (k ∈ population_keys D));
      try discriminate Hsh3; try tauto; simpl in Hsh3.
    - split; [done|]. injection Hsh3 as ->. unfold cov_fields.
      by rewrite !(assoc_L (∪)).
    - exfalso. injection Hsh3 as ->. revert Hn. vm_compute. lia.
    - exfalso. injection Hsh3 as ->. revert Hn. vm_compute. lia.
    - exfalso. injection Hsh3 as ->. revert Hn. vm_compute. lia. }
  split; [rewrite keep_complete_shape; split|split].
  - intros (S & HS & Hn). by apply (Hfive S).
  - intros (Hp & Hs & Hc). rewrite !decide_True in Hsh3 by done.
    eexists. split; [exact Hsh3|]. by vm_compute.
  - intros d Hd. apply keep_complete_lookup in Hd as [Hd Hn].
    apply (Hfive (dom d)); [|by rewrite size_dom].
    by rewrite shape_lookup, Hd.
  - intros [?|?]; auto.
Qed.

(** *** Where the coverage join raises [KeyError] *)






End Shapes.



(** ** The likelihood of [admin_err_and_bias] *)

Lemma foldM_inv {A S} (I : S → Prop) (step : S → A → res S) l s s' :
  (∀ s a s', a ∈ l → I s → step s a = Ok s' → I s') →
  I s → foldM step s l = Ok s' → I s'.
Proof.
  revert s. induction l as [|a l IH]; intros s Hstep Hs H; simpl in H.
  - by injection H as <-.
  - destruct (step s a) as [e|s1] eqn:H1; [done|]. simpl in H.
    apply (IH s1); [|by eapply (Hstep s a s1); [left|..]|done].
    intros ? ? ? ?. apply Hstep. by right.
Qed.

Lemma pydiv_inv x y q : pydiv x y = Ok q → y ≠ 0 ∧ q = x / y.
Proof. unfold pydiv. destruct (Req_dec_T y 0); [done|]. by intros [= <-]. Qed.






Lemma admin_obs_node_eq (d : fields) obs truth se :
  d !! "obs" = Some obs → d !! "truth" = Some truth → d !! "se" = Some se →
  admin_obs_node d =
  rbind (pydiv (11/10 * sqr se) (sqr truth)) (λ log_v,
  Ok (Observed "obs" (ln obs) (admin_logp (ln obs) (ln truth) log_v))).
Proof.
  intros Ho Ht Hs. unfold admin_obs_node, getitem. by rewrite Ho, Ht, Hs.
Qed.

(** a loop that appends what [f] makes of each item *)
Lemma foldM_append {A B} (f : A → res (list B)) l init out :
  foldM (λ acc a, rbind (f a) (λ bs, Ok (acc ++ bs))) init l = Ok out →
  (∀ b, b ∈ init → b ∈ out) ∧
  ∀ a, a ∈ l → ∃ bs, f a = Ok bs ∧ ∀ b, b ∈ bs → b ∈ out.
Proof.
  revert init. induction l as [|a l IH]; intros init H; simpl in H.
  - injection H as <-. split; [done|]. intros a Ha. by apply elem_of_nil in Ha.
  - destruct (f a) as [e|bs] eqn:Hf; [done|]. simpl in H.
    destruct (IH _ H) as [Hinit Hl]. split.
    + intros b Hb. apply Hinit, elem_of_app. by left.
    + intros a' Ha'. apply elem_of_cons in Ha' as [->|Ha']; [|by apply Hl].
      exists bs. split; [done|]. intros b Hb. apply Hinit, elem_of_app.
      by right.
Qed.




(** ** The properties at sample inputs *)

Lemma C1_cache_hit_witness :
  let X := sample_externals data_empty (Raise SamplerError) in
  let w := world_with X fname_reten JNull in
  llin_discard_rate X false w = (w, Ok JNull) ∧
  sampled (llin_discard_rate X false w).1 = sampled w.
Proof.
  intros X w.
  apply (C1_cache_hit X w {[fname_reten := JNull]} fname_reten JNull
           (llin_discard_rate X)).
  - rewrite elem_of_cons. by left.
  - reflexivity.
  - reflexivity.
Defined.

Lemma C2_retention_likelihood_witness :
  ∃ logp,
    model_has (Observed (retention_name row_A) (rt_Retention_Rate row_A) logp)
              (llin_vars [row_A]) ∧
    ∀ env : valuation,
      env name_pi < 1 → env name_sigma_reten ≠ 0 →
      logp env =
      Ok (normal_logpdf (Rpower (1 - env name_pi) (rt_Follow_up_Time row_A))
                        (env name_sigma_reten ^ 2)
                        (rt_Retention_Rate row_A)).
Proof.
  apply (C2_retention_likelihood [row_A] row_A).
  rewrite elem_of_cons. by left.
Defined.

Lemma C5_moment_matching_roundtrip_witness :
  beta_moments (beta_mean 1 2) (beta_variance 1 2) = Ok (1, 2).
Proof. apply (C5_moment_matching_roundtrip 1 2); lra. Defined.

Lemma C7_fault_keeps_cache_witness :
  let X := sample_externals data_empty (Raise SamplerError) in
  ∃ w',
    llin_discard_rate X true (fresh_world X) = (w', Raise SamplerError) ∧
    cache_file fname_reten w' = cache_file fname_reten (fresh_world X).
Proof.
  intros X.
  exists {| cache_dir := Some ∅;
            sampled := [scheduled_call (llin_vars [])]; stdout := [] |}.
  split; [reflexivity|].
  apply (C7_fault_keeps_cache X true (fresh_world X) _ SamplerError
           fname_reten (llin_discard_rate X)).
  - rewrite elem_of_cons. by left.
  - reflexivity.
Defined.


Lemma C10_empty_retention_witness :
  let X := sample_externals data_empty (Ok (post_const (1/3) 1)) in
  let x := 1/3 in
  let v := sqr 1 in
  let result :=
    reten_dict (x * (x * (1 - x) / v - 1), (1 - x) * (x * (1 - x) / v - 1)) in
  ∃ w', llin_discard_rate X false (fresh_world X) = (w', Ok result) ∧
        cache_file fname_reten w' = Some result ∧
        sampled w' =
          [scheduled_call [Stochastic name_pi (Beta 1 2);
                           Stochastic name_sigma_reten (InverseGamma 11 1)]].
Proof.
  intros X.
  apply (C10_empty_retention X false (fresh_world X) ∅ (post_const (1/3) 1)).
  - reflexivity.
  - reflexivity.
  - apply lookup_empty.
  - reflexivity.
  - unfold sqr. simpl. lra.
Defined.

Lemma truth_X_nonzero : truth_X ≠ 0.
Proof.
  unfold truth_X, Rpower.
  pose proof (exp_pos (hh_time hh_row_X * ln (1 - 1 / (1 + 2)))) as Hp.
  apply Rgt_not_eq. apply Rdiv_lt_0_compat; lra.
Qed.

Lemma data_X_join :
  admin_data_dict (1 / (1 + 2)) data_X = Ok {[key_X := fields_X]}.
Proof.
  unfold admin_data_dict. cbn [data_X admin_llin hh_llin_flow foldM].
  rewrite admin_step_eq. cbv zeta. cbn [rbind].
  rewrite hh_flow_step_eq. cbv zeta.
  rewrite pypow_pos by lra. cbn [rbind].
  rewrite pydiv_ok by (unfold Rpower; apply Rgt_not_eq, exp_pos).
  cbn [rbind]. reflexivity.
Qed.

Lemma data_X_vars :
  admin_vars {[key_X := fields_X]} =
  Ok [Stochastic name_sigma_admin (InverseGamma 11 1);
      Stochastic name_eps (Normal 0 1); node_X].
Proof.
  unfold admin_vars. rewrite map_to_list_singleton. cbn [foldM snd].
  rewrite (admin_obs_node_eq fields_X 1000 truth_X 50) by done.
  rewrite pydiv_ok; [done|].
  rewrite sqr_zero. apply truth_X_nonzero.
Qed.


(** the coverage join keeps a key that has its three rows *)
Example data_cov_join :
  cov_data_dict data_cov =
  Ok {[key_X := <["se" := 5/100]> (<["uncovered" := 4/10]>
                 (<["stock_se" := 50 / (10 * 1000)]>
                   (<["stock" := 1200 / (10 * 1000)]>
                     {["pop" := 10 * 1000]})))]}.
Proof.
  unfold cov_data_dict. cbn [data_cov population hh_llin_stock llin_coverage].
  cbn [foldM]. rewrite population_step_eq. cbn [rbind].
  rewrite hh_stock_step_eq. cbv zeta.
  cbn [pp_Country pp_Year pp_Pop hs_Country hs_Survey_Year2
       hs_SvyIndex_LLINstotal hs_SvyIndex_st].
  rewrite lookup_insert_eq, lookup_singleton_eq.
  rewrite !pydiv_ok by lra. cbn [rbind].
  rewrite coverage_step_eq. cbv zeta.
  cbn [cv_Country cv_Survey_Year2 cv_Per_0LLINs cv_LLINs0_SE].
  rewrite lookup_insert_eq. reflexivity.
Qed.

(** a run of the entry point that completes: no data, an empty cache
    directory, a sampler that reports mean 1/3 and standard deviation 1 *)
Example main_completes :
  let X := sample_externals data_empty (Ok (post_const (1/3) 1)) in
  ∃ w' files,
    main X [] (fresh_world X) = (w', Ok tt) ∧
    length (sampled w') = 3%nat ∧
    cache_dir w' = Some files ∧
    dom files = {[fname_reten; fname_admin; fname_cov]}.
Proof.
  intros X.
  unfold main. cbn [length Nat.eqb negb]. unfold bind at 1.
  rewrite (llin_computes X true (fresh_world X) ∅ (post_const (1/3) 1));
    [|reflexivity|by left|reflexivity].
  cbv zeta. unfold beta_moments. cbn [post_const mean standard_deviation].
  rewrite !pydiv_ok by (unfold sqr; lra). cbn [rbind].
  set (r1 := reten_dict _). set (w1 := {| cache_dir := _ |}).
  unfold bind at 1.
  destruct (admin_computes X true w1 w1 _ _ r1 _ _ ∅
              [Stochastic name_sigma_admin (InverseGamma 11 1);
               Stochastic name_eps (Normal 0 1)] (post_const (1/3) 1)
              eq_refl (or_introl eq_refl)
              (llin_cache_hit X w1 _ r1 eq_refl (lookup_insert_eq _ _ _))
              eq_refl eq_refl eq_refl)
    as [r2 ->]; [simpl; unfold sqr; lra | reflexivity | reflexivity
                | reflexivity | simpl; lra | simpl; lra |].
  unfold bind at 1.
  match goal with
  | |- context [cov_and_zif_fac _ true ?w] => set (w2 := w)
  end.
  destruct (cov_computes X true w2 _ ∅
              [Stochastic name_e (Normal 5 3); Stochastic name_z (Beta 1 10)]
              (post_const (1/3) 1)
              eq_refl (or_introl eq_refl) eq_refl eq_refl eq_refl)
    as [r3 ->]; [simpl; lra | simpl; lra |].
  eexists _, _. split; [reflexivity|]. split; [reflexivity|].
  split; [reflexivity|].
  rewrite !dom_insert_L, dom_empty_L. set_solver.
Qed.

(** ** Further properties of the estimators *)

Section Runs.

Variable X : externals.

Local Abbreviation llin := (llin_discard_rate X).
Local Abbreviation admin := (admin_err_and_bias X).
Local Abbreviation cov := (cov_and_zif_fac X).

Ltac steps := repeat (simplify_eq/=; try case_match).

Ltac open_ops :=
  unfold bind, in_listdir, load_cache, MCMC_sample, lift, print,
    dump_cache, ret in *.


(** *** What a run writes *)

(** after a run that returned [v], the estimator's cache file parses to [v],
    provided [dump] followed by [load] gives a document back *)
Lemma llin_result_cached recompute (w w' : world X) v :
  (∀ u, json_load X (json_dump X u) = Ok u) →
  llin recompute w = (w', Ok v) →
  ∃ files c, cache_dir w' = Some files ∧ files !! fname_reten = Some c ∧
             json_load X c = Ok v.
Proof.
  intros Hrt. unfold llin_discard_rate. open_ops. intros H. steps.
  - eexists _, _. repeat split; try done.
  - eexists _, _. split; [done|]. by rewrite lookup_insert_eq.
Qed.

Lemma cov_result_cached recompute (w w' : world X) v :
  (∀ u, json_load X (json_dump X u) = Ok u) →
  cov recompute w = (w', Ok v) →
  ∃ files c, cache_dir w' = Some files ∧ files !! fname_cov = Some c ∧
             json_load X c = Ok v.
Proof.
  intros Hrt. unfold cov_and_zif_fac. open_ops. intros H. steps.
  - eexists _, _. repeat split; try done.
  - eexists _, _. split; [done|]. by rewrite lookup_insert_eq.
Qed.

Lemma admin_result_cached recompute (w w' : world X) v :
  (∀ u, json_load X (json_dump X u) = Ok u) →
  admin recompute w = (w', Ok v) →
  ∃ files c, cache_dir w' = Some files ∧ files !! fname_admin = Some c ∧
             json_load X c = Ok v.
Proof.
  intros Hrt. unfold admin_err_and_bias. open_ops. intros H.
  destruct (cache_dir w) as [d|] eqn:Hd; [|steps]. simpl in H.
  destruct (_ && negb recompute) eqn:Hc.
  { steps. eexists _, _. repeat split; try done. }
  destruct (llin false w) as [w1 x1] eqn:Hl. clear Hl.
  steps. eexists _, _. split; [done|]. by rewrite lookup_insert_eq.
Qed.

(** X2: Calling an estimator again without [recompute] after a run that returned
    gives the same result back and changes nothing more: the second call
    reads the cache, whether the first one read it or wrote it. *)
Theorem second_call_reads_cache recompute (w w' : world X) (v : json)
    (fname : string) (est : bool → M X json) :
  (∀ u, json_load X (json_dump X u) = Ok u) →
  (fname, est) ∈ [(fname_reten, llin); (fname_admin, admin); (fname_cov, cov)] →
  est recompute w = (w', Ok v) →
  est false w' = (w', Ok v).
Proof.
  intros Hrt Hin Hrun.
  rewrite !elem_of_cons, elem_of_nil in Hin.
  destruct Hin as [?|[?|[?|[]]]]; simplify_eq.
  - apply llin_result_cached in Hrun as (files & c & Hd & Hc & <-); [|done].
    by apply cache_hit_step with files.
  - apply admin_result_cached in Hrun as (files & c & Hd & Hc & <-); [|done].
    by apply cache_hit_step with files.
  - apply cov_result_cached in Hrun as (files & c & Hd & Hc & <-); [|done].
    by apply cache_hit_step with files.
Qed.

(** *** When the sampler runs *)

(** X3: On a cache miss or under [recompute], [llin_discard_rate] calls the
    sampler exactly once, on the model of the retention data and on the fixed
    schedule, whatever the sampler then answers. *)
Theorem llin_miss_samples_once recompute (w : world X) d :
  cache_dir w = Some d →
  recompute = true ∨ d !! fname_reten = None →
  sampled (llin recompute w).1 =
  sampled w ++ [scheduled_call (llin_vars (retention (data X)))].
Proof.
  intros Hd Hmiss. unfold llin_discard_rate, scheduled_call. open_ops.
  rewrite Hd. simpl. rewrite miss_condition by done.
  change (10000 * 20 + 20000)%Z with 220000%Z.
  by steps.
Qed.

(** X4: On a cache miss or under [recompute], [cov_and_zif_fac] calls the sampler
    once if the join and the declaration of the nodes went through, and not
    at all if either raised. *)
Theorem cov_miss_samples recompute (w : world X) d :
  cache_dir w = Some d →
  recompute = true ∨ d !! fname_cov = None →
  sampled (cov recompute w).1 =
  sampled w ++
    match rbind (cov_data_dict (data X)) cov_vars with
    | inr vars => [scheduled_call vars]
    | inl _ => []
    end.
Proof.
  intros Hd Hmiss. unfold cov_and_zif_fac, scheduled_call. open_ops.
  rewrite Hd. simpl. rewrite miss_condition by done.
  change (10000 * 20 + 20000)%Z with 220000%Z.
  destruct (cov_data_dict (data X)) as [e|dd]; simpl;
    [by rewrite app_nil_r|].
  destruct (cov_vars dd) as [e|vars]; simpl; [by rewrite app_nil_r|].
  by steps.
Qed.

(** *** Which files a run touches *)

Lemma llin_frame recompute (w w' : world X) x :
  llin recompute w = (w', x) →
  (∀ f, f ∉ written_by_llin → cache_file f w' = cache_file f w) ∧
  (∀ f, is_Some (cache_file f w) → is_Some (cache_file f w')).
Proof.
  unfold llin_discard_rate, cache_file, written_by_llin. open_ops.
  intros H. steps.
  all: split; [intros f Hf|intros f Hsome]; try done.
  all: repeat match goal with
         | H : cache_dir _ = _ |- _ => rewrite H in *; clear H
         end; simpl in *; try done.
  - rewrite lookup_insert_ne; [done|]. intros <-. apply Hf.
    rewrite elem_of_cons. by left.
  - rewrite lookup_insert. case_decide; eauto.
Qed.

Lemma cov_frame recompute (w w' : world X) x :
  cov recompute w = (w', x) →
  (∀ f, f ∉ written_by_cov → cache_file f w' = cache_file f w) ∧
  (∀ f, is_Some (cache_file f w) → is_Some (cache_file f w')).
Proof.
  unfold cov_and_zif_fac, cache_file, written_by_cov. open_ops.
  intros H. steps.
  all: split; [intros f Hf|intros f Hsome]; try done.
  all: repeat match goal with
         | H : cache_dir _ = _ |- _ => rewrite H in *; clear H
         end; simpl in *; try done.
  - rewrite lookup_insert_ne; [done|]. intros <-. apply Hf.
    rewrite elem_of_cons. by left.
  - rewrite lookup_insert. case_decide; eauto.
Qed.

Lemma admin_frame recompute (w w' : world X) x :
  admin recompute w = (w', x) →
  (∀ f, f ∉ written_by_admin → cache_file f w' = cache_file f w) ∧
  (∀ f, is_Some (cache_file f w) → is_Some (cache_file f w')).
Proof.
  unfold admin_err_and_bias. open_ops. intros H.
  destruct (cache_dir w) as [d|] eqn:Hd; [|by steps]. simpl in H.
  destruct (_ && negb recompute) eqn:Hc; [by steps|].
  destruct (llin false w) as [w1 x1] eqn:Hl.
  apply llin_frame in Hl as [Hf1 Hs1].
  assert (∀ f, f ∉ written_by_admin → cache_file f w1 = cache_file f w) as Hf.
  { intros f Hf. apply Hf1. unfold written_by_admin, written_by_llin in *.
    rewrite !elem_of_cons in Hf. rewrite elem_of_cons. tauto. }
  clear Hf1. unfold cache_file in *.
  steps; try (split; [exact Hf | exact Hs1]).
  split.
  - intros f Hnf. rewrite <- (Hf f Hnf).
    rewrite lookup_insert_ne; [done|]. intros <-. apply Hnf.
    unfold written_by_admin. rewrite elem_of_cons. by left.
  - intros f Hsome. specialize (Hs1 f Hsome).
    rewrite lookup_insert. case_decide; eauto.
Qed.

(** X5: A run of an estimator, however it ends, leaves every cache file other
    than those it may write as it was, and removes no file: what was in the
    directory before is still there. *)
Theorem runs_keep_other_files recompute (w : world X) :
  Forall (λ p : list string * (bool → M X json),
    (∀ f, f ∉ p.1 →
          cache_file f (p.2 recompute w).1 = cache_file f w) ∧
    (∀ f, is_Some (cache_file f w) →
          is_Some (cache_file f (p.2 recompute w).1)))
    [(written_by_llin, llin); (written_by_admin, admin);
     (written_by_cov, cov)].
Proof.
  repeat apply Forall_cons_2; [| | |constructor]; simpl.
  - destruct (llin recompute w) as [w' x] eqn:H. by apply llin_frame in H.
  - destruct (admin recompute w) as [w' x] eqn:H. by apply admin_frame in H.
  - destruct (cov recompute w) as [w' x] eqn:H. by apply cov_frame in H.
Qed.

(** *** The nested call of [admin_err_and_bias] *)


(** *** Summaries *)




End Runs.


(** ** Further properties of the model construction *)

Lemma beta_moments_inv x v a b :
  beta_moments x v = Ok (a, b) →
  v ≠ 0 ∧ a = x * (x * (1 - x) / v - 1) ∧ b = (1 - x) * (x * (1 - x) / v - 1).
Proof.
  unfold beta_moments, pydiv. destruct (Req_dec_T v 0); [done|]. simpl.
  by intros [= <- <-].
Qed.

(** X11: The shapes that moment matching returns do have the given mean and
    variance as their Beta mean and variance, as long as the mean is neither
    0 nor 1 and the variance is not x(1-x). *)
Theorem beta_moments_has_moments x v a b :
  beta_moments x v = Ok (a, b) →
  x * (1 - x) ≠ 0 →
  v ≠ x * (1 - x) →
  beta_mean a b = x ∧ beta_variance a b = v.
Proof.
  intros H Hx Hv. apply beta_moments_inv in H as (Hv0 & -> & ->).
  assert (x * (1 - x) / v - 1 ≠ 0) as Hc.
  { intros Hc. apply Hv. apply Rminus_diag_uniq in Hc.
    replace (x * (1 - x)) with (x * (1 - x) / v * v) by (by field).
    rewrite Hc. ring. }
  assert (x * (1 - x) / v ≠ 0) as Hq.
  { intros Hq. apply Hx.
    replace (x * (1 - x)) with (x * (1 - x) / v * v) by (by field).
    rewrite Hq. ring. }
  unfold beta_mean, beta_variance. split.
  - field. split; [lra|]. nra.
  - set (c := x * (1 - x) / v - 1) in *.
    replace (x * c + (1 - x) * c) with c by ring.
    replace (c + 1) with (x * (1 - x) / v) by (unfold c; ring).
    field. split_and!; try done.
    + intros H0. apply Hx. rewrite H0. ring.
    + intros H0. apply Hx. rewrite H0. ring.
Qed.

(** X12: Nothing checks that the result is a Beta distribution: for a mean
    strictly between 0 and 1 and a positive variance, both shapes are
    positive exactly when the variance is below x(1-x). *)
Theorem beta_moments_positive_iff x v a b :
  beta_moments x v = Ok (a, b) →
  0 < x < 1 → 0 < v →
  (0 < a ∧ 0 < b) ↔ v < x * (1 - x).
Proof.
  intros H Hx Hv. apply beta_moments_inv in H as (_ & -> & ->).
  assert (0 < x * (1 - x)) as Hxx by nra.
  assert (0 < x * (1 - x) / v - 1 ↔ v < x * (1 - x)) as Hc.
  { split; intros Hlt.
    - apply Rmult_lt_reg_r with (/ v); [by apply Rinv_0_lt_compat|].
      rewrite Rinv_r by lra. unfold Rdiv in Hlt. lra.
    - apply Rmult_lt_compat_r with (r := / v) in Hlt;
        [|by apply Rinv_0_lt_compat].
      rewrite Rinv_r in Hlt by lra. unfold Rdiv. lra. }
  rewrite <- Hc. split.
  - intros [Ha _]. nra.
  - intros Hpos. split; nra.
Qed.

(** X13: [vars += [retention_obs]] inside the loop: the model of
    [llin_discard_rate] is the two hyper-priors followed by one entry per
    retention record, and each of these entries is the same list of all the
    observed nodes, in the order of the data. *)
Theorem llin_vars_aliasing (rows : list retention_row) :
  length (llin_vars rows) = (2 + length rows)%nat ∧
  llin_vars rows !! 0%nat = Some (Stochastic name_pi (Beta 1 2)) ∧
  llin_vars rows !! 1%nat =
    Some (Stochastic name_sigma_reten (InverseGamma 11 1)) ∧
  ∀ i, (2 ≤ i < 2 + length rows)%nat →
       llin_vars rows !! i = Some (Container (retention_obs_node <$> rows)).
Proof.
  rewrite llin_vars_shape. split_and!; try done.
  - simpl. by rewrite length_replicate.
  - intros i Hi. destruct i as [|[|i]]; try lia. simpl.
    apply lookup_replicate_2. lia.
Qed.

(** *** When the admin join raises *)

Lemma hh_flow_fold_total mu_pi l dd :
  mu_pi < 1 → ∃ dd', foldM (hh_flow_step mu_pi) dd l = Ok dd'.
Proof.
  intros Hmu. revert dd. induction l as [|a l IH]; intros dd; simpl; [eauto|].
  rewrite hh_flow_step_eq. cbv zeta.
  rewrite pypow_pos by lra. cbn [rbind].
  rewrite pydiv_ok by (unfold Rpower; apply Rgt_not_eq, exp_pos).
  cbn [rbind]. apply IH.
Qed.

Lemma admin_join_returns mu_pi (D : data_module) :
  mu_pi < 1 → ∃ dd, admin_data_dict mu_pi D = Ok dd.
Proof.
  intros Hmu. unfold admin_data_dict.
  destruct (foldM_admin_step_ok (admin_llin D) ∅) as [dd1 ->]. cbn [rbind].
  destruct (hh_flow_fold_total mu_pi (hh_llin_flow D) dd1 Hmu) as [dd2 ->].
  cbn [rbind]. eauto.
Qed.


Lemma hh_flow_step_rate_one dd (d : hh_flow_row) :
  (hh_time d = 0 → ∃ dd', hh_flow_step 1 dd d = Ok dd') ∧
  (hh_time d ≠ 0 → hh_flow_step 1 dd d = Raise ZeroDivisionError).
Proof.
  rewrite hh_flow_step_eq. cbv zeta.
  replace (1 - 1) with 0 by ring. unfold pypow.
  destruct (Req_dec_T (hh_time d) 0) as [Ht|Ht].
  - split; [|done]. intros _. cbn [rbind]. rewrite pydiv_ok by lra.
    cbn [rbind]. eauto.
  - split; [done|]. intros _.
    destruct (Rlt_dec 0 0) as [?|_]; [lra|].
    destruct (Req_dec_T 0 0) as [_|?]; [|lra].
    destruct (Rlt_dec (hh_time d) 0); cbn [rbind]; [done|].
    by rewrite pydiv_zero.
Qed.

(** X15: A mean discard rate of exactly 1 (a prior with beta = 0) is not guarded:
    as soon as one household row has a survey date off mid-year of its year,
    the admin join ends in [ZeroDivisionError]. *)
Theorem admin_join_rate_one (D : data_module) (rh : hh_flow_row) :
  rh ∈ hh_llin_flow D →
  hf_mean_survey_date rh ≠ IZR (hf_Year rh) + 5/10 →
  admin_data_dict 1 D = Raise ZeroDivisionError.
Proof.
  intros Hin Ht. unfold admin_data_dict.
  destruct (foldM_admin_step_ok (admin_llin D) ∅) as [dd1 ->]. cbn [rbind].
  assert (hh_time rh ≠ 0) as Ht' by (unfold hh_time; lra). clear Ht.
  revert dd1. induction (hh_llin_flow D) as [|a l IH]; intros dd1.
  - by apply elem_of_nil in Hin.
  - cbn [foldM]. destruct (hh_flow_step_rate_one dd1 a) as [Hz Hnz].
    destruct (Req_dec_T (hh_time a) 0) as [Ha|Ha].
    + destruct (Hz Ha) as [dd' ->]. cbn [rbind].
      apply elem_of_cons in Hin as [->|Hin]; [done|].
      specialize (IH Hin dd'). by destruct (foldM _ dd' l).
    + by rewrite (Hnz Ha).
Qed.

(** *** The records of the coverage join *)

Lemma population_step_partial D (rp : population_row) dd dd' :
  rp ∈ population D →
  (∀ k d, dd !! k = Some d → cov_partial D k d) →
  population_step dd rp = Ok dd' →
  ∀ k d, dd' !! k = Some d → cov_partial D k d.
Proof.
  intros Hin Hinv. rewrite population_step_eq. intros [= <-] k d.
  rewrite lookup_insert. case_decide as Hk; [|by apply Hinv].
  intros [= <-]. subst k. split_and!.
  - exists rp. by rewrite lookup_singleton_eq.
  - intros v. by rewrite lookup_singleton_ne.
  - intros v. by rewrite lookup_singleton_ne.
Qed.

Lemma hh_stock_step_partial D (rs : hh_stock_row) dd dd' :
  rs ∈ hh_llin_stock D →
  (∀ k d, dd !! k = Some d → cov_partial D k d) →
  hh_stock_step dd rs = Ok dd' →
  ∀ k d, dd' !! k = Some d → cov_partial D k d.
Proof.
  intros Hin Hinv. rewrite hh_stock_step_eq. cbv zeta.
  destruct (dd !! _) as [d0|] eqn:Hd0; [|done].
  destruct (d0 !! "pop") as [pop|] eqn:Hpop; [|done].
  destruct (pydiv (hs_SvyIndex_LLINstotal rs) pop) as [e|stock] eqn:Hq1;
    [done|]. cbn [rbind].
  destruct (pydiv (hs_SvyIndex_st rs) pop) as [e|stock_se] eqn:Hq2;
    [done|]. cbn [rbind].
  apply pydiv_inv in Hq1 as [Hp0 ->]. apply pydiv_inv in Hq2 as [_ ->].
  intros [= <-] k d.
  rewrite lookup_insert. case_decide as Hk; [|by apply Hinv].
  intros [= <-]. subst k.
  destruct (Hinv _ _ Hd0) as ((rp & ? & ? & Hrp) & _ & Hse). split_and!.
  - exists rp. by rewrite !lookup_insert_ne by done.
  - intros v. rewrite lookup_insert_eq. intros [= <-].
    exists rs, pop. split_and!; try done.
    + by rewrite !lookup_insert_ne by done.
    + rewrite lookup_insert_ne by discriminate. by rewrite lookup_insert_eq.
  - intros v. rewrite !lookup_insert_ne by done. intros Hv.
    destruct (Hse v Hv) as (rc & ? & ? & ? & ?).
    exists rc. split_and!; try done.
    all: by rewrite !lookup_insert_ne by done.
Qed.

Lemma coverage_step_partial D (rc : coverage_row) dd dd' :
  rc ∈ llin_coverage D →
  (∀ k d, dd !! k = Some d → cov_partial D k d) →
  coverage_step dd rc = Ok dd' →
  ∀ k d, dd' !! k = Some d → cov_partial D k d.
Proof.
  intros Hin Hinv. rewrite coverage_step_eq. cbv zeta.
  destruct (dd !! _) as [d0|] eqn:Hd0; [|done].
  intros [= <-] k d.
  rewrite lookup_insert. case_decide as Hk; [|by apply Hinv].
  intros [= <-]. subst k.
  destruct (Hinv _ _ Hd0) as ((rp & ? & ? & Hrp) & Hst & _). split_and!.
  - exists rp. by rewrite !lookup_insert_ne by done.
  - intros v. rewrite !lookup_insert_ne by done. intros Hv.
    destruct (Hst v Hv) as (rs & pop & ? & ? & ? & ? & ? & ?).
    exists rs, pop. split_and!; try done.
    all: by rewrite !lookup_insert_ne by done.
  - intros v. rewrite lookup_insert_eq. intros [= <-].
    exists rc. split_and!; try done.
    rewrite lookup_insert_ne by done. by rewrite lookup_insert_eq.
Qed.

Lemma cov_join_partial D dd k d :
  cov_data_dict D = Ok dd → dd !! k = Some d → cov_partial D k d.
Proof.
  unfold cov_data_dict.
  destruct (foldM population_step _ _) as [e|dd1] eqn:H1; [done|].
  cbn [rbind].
  destruct (foldM hh_stock_step _ _) as [e|dd2] eqn:H2; [done|]. cbn [rbind].
  destruct (foldM coverage_step _ _) as [e|dd3] eqn:H3; [done|]. cbn [rbind].
  intros [= <-] Hd. apply keep_complete_lookup in Hd as [Hd _].
  revert k d Hd.
  set (I := λ dd : data_dict, ∀ k d, dd !! k = Some d → cov_partial D k d).
  apply (foldM_inv I coverage_step (llin_coverage D) dd2 dd3); [| |exact H3].
  { intros s a s' Ha Hs Hstep.
    exact (coverage_step_partial D a s s' Ha Hs Hstep). }
  apply (foldM_inv I hh_stock_step (hh_llin_stock D) dd1 dd2); [| |exact H2].
  { intros s a s' Ha Hs Hstep.
    exact (hh_stock_step_partial D a s s' Ha Hs Hstep). }
  apply (foldM_inv I population_step (population D) ∅ dd1); [| |exact H1].
  { intros s a s' Ha Hs Hstep.
    exact (population_step_partial D a s s' Ha Hs Hstep). }
  intros ? ?. by rewrite lookup_empty.
Qed.

Lemma foldM_total {A S} (J : S → Prop) (step : S → A → res S) l s :
  (∀ s a, a ∈ l → J s → ∃ s', step s a = Ok s' ∧ J s') →
  J s → ∃ s', foldM step s l = Ok s' ∧ J s'.
Proof.
  revert s. induction l as [|a l IH]; intros s Hstep Hs; simpl; [eauto|].
  destruct (Hstep s a) as (s1 & -> & Hs1); [by left|done|]. simpl.
  apply IH; [|done]. intros ? ? ?. apply Hstep. by right.
Qed.

(** X18: The coverage join goes through whenever every stock row and every
    coverage row is of a country-year that has a population row, and no
    population figure is zero. *)
Theorem cov_join_total (D : data_module) :
  (∀ k, k ∈ hh_stock_keys D ∨ k ∈ coverage_keys D → k ∈ population_keys D) →
  (∀ rp, rp ∈ population D → pp_Pop rp ≠ 0) →
  ∃ dd, cov_data_dict D = Ok dd.
Proof.
  intros Hkeys Hpop. unfold cov_data_dict.
  destruct (population_fold (population D) ∅) as (dd1 & H1 & Hsh1).
  rewrite H1. cbn [rbind]. fold (population_keys D) in Hsh1.
  set (J := λ dd : data_dict,
         (∀ k d, dd !! k = Some d → cov_partial D k d) ∧
         (∀ k, k ∈ population_keys D → is_Some (dd !! k))).
  assert (J dd1) as HJ1.
  { split.
    - set (I := λ dd : data_dict,
             ∀ k d, dd !! k = Some d → cov_partial D k d).
      apply (foldM_inv I population_step (population D) ∅ dd1);
        [| |exact H1].
      + intros s a s' Ha Hs Hstep.
        exact (population_step_partial D a s s' Ha Hs Hstep).
      + intros ? ?. by rewrite lookup_empty.
    - intros k Hk. specialize (Hsh1 k). rewrite decide_True in Hsh1 by done.
      rewrite shape_lookup in Hsh1. by destruct (dd1 !! k). }
  destruct (foldM_total J hh_stock_step (hh_llin_stock D) dd1)
    as (dd2 & -> & HJ2); [|done|].
  { intros s a Ha [Hpart Hpres].
    assert ((hs_Country a, hs_Survey_Year2 a) ∈ population_keys D) as Hk.
    { apply Hkeys. left. unfold hh_stock_keys.
      by apply (list_elem_of_fmap_2 (λ d, (hs_Country d, hs_Survey_Year2 d))). }
    destruct (Hpres _ Hk) as [d0 Hd0].
    destruct (Hpart _ _ Hd0) as ((rp & Hrp & _ & Hp) & _ & _).
    assert (pp_Pop rp * 1000 ≠ 0) as Hnz.
    { specialize (Hpop rp Hrp). lra. }
    assert (∃ s', hh_stock_step s a = Ok s') as [s' Hs'].
    { rewrite hh_stock_step_eq. cbv zeta. rewrite Hd0, Hp.
      rewrite !pydiv_ok by done. cbn [rbind]. eauto. }
    exists s'. split; [done|]. split.
    - by apply (hh_stock_step_partial D a s s').
    - intros k Hin. specialize (Hpres k Hin).
      rewrite hh_stock_step_eq in Hs'. cbv zeta in Hs'. rewrite Hd0, Hp in Hs'.
      rewrite !pydiv_ok in Hs' by done. cbn [rbind] in Hs'.
      injection Hs' as <-. rewrite lookup_insert. case_decide; eauto. }
  cbn [rbind].
  destruct (foldM_total J coverage_step (llin_coverage D) dd2)
    as (dd3 & -> & HJ3); [|done|by cbn [rbind]; eauto].
  intros s a Ha [Hpart Hpres].
  assert ((cv_Country a, cv_Survey_Year2 a) ∈ population_keys D) as Hk.
  { apply Hkeys. right. unfold coverage_keys.
    by apply (list_elem_of_fmap_2 (λ d, (cv_Country d, cv_Survey_Year2 d))). }
  destruct (Hpres _ Hk) as [d0 Hd0].
  assert (∃ s', coverage_step s a = Ok s') as [s' Hs'].
  { rewrite coverage_step_eq. cbv zeta. rewrite Hd0. eauto. }
  exists s'. split; [done|]. split.
  - by apply (coverage_step_partial D a s s').
  - intros k Hin. specialize (Hpres k Hin).
    rewrite coverage_step_eq in Hs'. cbv zeta in Hs'. rewrite Hd0 in Hs'.
    injection Hs' as <-. rewrite lookup_insert. case_decide; eauto.
Qed.

(** *** The likelihood of [cov_and_zif_fac] *)

Lemma cov_nodes_eq k (d : fields) stock stock_se value se :
  d !! "stock" = Some stock → d !! "stock_se" = Some stock_se →
  d !! "uncovered" = Some value → d !! "se" = Some se →
  cov_nodes k d =
  rbind (pow_m2 stock_se) (λ stock_tau,
  rbind (pow_m2 se) (λ tau,
  Ok [Stochastic (stock_name k) (Normal stock stock_tau);
      Observed "obs" value (cov_logp value (stock_name k) tau)])).
Proof.
  intros H1 H2 H3 H4. unfold cov_nodes, getitem. rewrite H1, H2. cbn [rbind].
  destruct (pow_m2 stock_se); cbn [rbind]; [done|]. by rewrite H3, H4.
Qed.

Lemma pow_m2_inv x t : pow_m2 x = Ok t → x ≠ 0 ∧ t = / x ^ 2.
Proof. unfold pow_m2. destruct (Req_dec_T x 0); [done|]. by intros [= <-]. Qed.

Lemma cov_logp_normal value stock se (env : valuation) :
  se ≠ 0 →
  cov_logp value stock (/ se ^ 2) env =
  Ok (normal_logpdf
        (env name_z + (1 - env name_z) * exp (- env name_e * env stock))
        (se ^ 2) value).
Proof.
  intros Hse. unfold cov_logp. f_equal.
  rewrite <- normal_like_precision.
  - f_equal. field. done.
  - destruct (Rtotal_order se 0) as [?|[?|?]]; [nra|done|nra].
Qed.

(** a record of the coverage join and the three rows it is made of *)
Lemma cov_join_records D dd k d :
  cov_data_dict D = Ok dd → dd !! k = Some d →
  ∃ rp rs rc,
    rp ∈ population D ∧ rs ∈ hh_llin_stock D ∧ rc ∈ llin_coverage D ∧
    (pp_Country rp, pp_Year rp) = k ∧
    (hs_Country rs, hs_Survey_Year2 rs) = k ∧
    (cv_Country rc, cv_Survey_Year2 rc) = k ∧
    pp_Pop rp * 1000 ≠ 0 ∧
    d !! "pop" = Some (pp_Pop rp * 1000) ∧
    d !! "stock" = Some (hs_SvyIndex_LLINstotal rs / (pp_Pop rp * 1000)) ∧
    d !! "stock_se" = Some (hs_SvyIndex_st rs / (pp_Pop rp * 1000)) ∧
    d !! "uncovered" = Some (cv_Per_0LLINs rc) ∧
    d !! "se" = Some (cv_LLINs0_SE rc).
Proof.
  intros Hdd Hd.
  destruct (cov_join_keys D dd k Hdd) as (_ & Hdom & _).
  specialize (Hdom d Hd).
  destruct (cov_join_partial D dd k d Hdd Hd)
    as ((rp & Hrp & Hkp & Hpop) & Hst & Hse).
  assert (is_Some (d !! "stock_se")) as [v1 Hv1].
  { apply elem_of_dom. rewrite Hdom. unfold cov_fields.
    rewrite !elem_of_union, !elem_of_singleton. auto. }
  assert (is_Some (d !! "se")) as [v2 Hv2].
  { apply elem_of_dom. rewrite Hdom. unfold cov_fields.
    rewrite !elem_of_union, !elem_of_singleton. auto. }
  destruct (Hst v1 Hv1) as (rs & pop & Hrs & Hks & Hpop' & Hp0 & Hstock & ->).
  destruct (Hse v2 Hv2) as (rc & Hrc & Hkc & -> & Hunc).
  rewrite Hpop in Hpop'. injection Hpop' as <-.
  by exists rp, rs, rc.
Qed.

(** X19: For every record of the coverage join the sampler is handed a latent
    stock variable, normal around stock/population with precision
    1/stock_se^2, and a node that observes the share of households without a
    net with the log-likelihood of a normal distribution of mean
    z + (1-z) exp(-e * stock) and variance se^2; the figures are those of a
    population, a stock and a coverage row of the record's key. *)
Theorem cov_likelihood (D : data_module) dd vars k d :
  cov_data_dict D = Ok dd →
  cov_vars dd = Ok vars →
  dd !! k = Some d →
  ∃ rp rs rc logp,
    rp ∈ population D ∧ rs ∈ hh_llin_stock D ∧ rc ∈ llin_coverage D ∧
    (pp_Country rp, pp_Year rp) = k ∧
    (hs_Country rs, hs_Survey_Year2 rs) = k ∧
    (cv_Country rc, cv_Survey_Year2 rc) = k ∧
    let pop := pp_Pop rp * 1000 in
    Stochastic (stock_name k)
               (Normal (hs_SvyIndex_LLINstotal rs / pop)
                       (/ (hs_SvyIndex_st rs / pop) ^ 2)) ∈ vars ∧
    Observed "obs" (cv_Per_0LLINs rc) logp ∈ vars ∧
    ∀ env : valuation,
      logp env =
      Ok (normal_logpdf
            (env name_z +
             (1 - env name_z) * exp (- env name_e * env (stock_name k)))
            (cv_LLINs0_SE rc ^ 2) (cv_Per_0LLINs rc)).
Proof.
  intros Hdd Hvars Hd.
  destruct (cov_join_records D dd k d Hdd Hd)
    as (rp & rs & rc & Hrp & Hrs & Hrc & Hkp & Hks & Hkc & Hp0 & _ &
        Hstock & Hsse & Hunc & Hse).
  unfold cov_vars in Hvars. apply foldM_append in Hvars as [_ Hl].
  destruct (Hl (k, d)) as (bs & Hbs & Hin).
  { by apply elem_of_map_to_list. }
  cbn [fst snd] in Hbs.
  rewrite (cov_nodes_eq k d _ _ _ _ Hstock Hsse Hunc Hse) in Hbs.
  destruct (pow_m2 (hs_SvyIndex_st rs / _)) as [e|t1] eqn:Ht1; [done|].
  cbn [rbind] in Hbs.
  destruct (pow_m2 (cv_LLINs0_SE rc)) as [e|t2] eqn:Ht2; [done|].
  cbn [rbind] in Hbs. injection Hbs as <-.
  apply pow_m2_inv in Ht1 as [_ ->]. apply pow_m2_inv in Ht2 as [Hse0 ->].
  exists rp, rs, rc, (cov_logp (cv_Per_0LLINs rc) (stock_name k)
                        (/ cv_LLINs0_SE rc ^ 2)).
  split_and!; try done. cbv zeta. split_and!.
  - apply Hin. rewrite elem_of_cons. by left.
  - apply Hin. rewrite !elem_of_cons. auto.
  - intros env. by apply cov_logp_normal.
Qed.

(** *** When the declaration of the nodes raises *)






(** *** Rows that share a key *)

Lemma foldM_app {A S} (step : S → A → res S) s l1 l2 :
  foldM step s (l1 ++ l2) = rbind (foldM step s l1) (λ s', foldM step s' l2).
Proof.
  revert s. induction l1 as [|a l1 IH]; intros s; simpl; [done|].
  destruct (step s a); simpl; [done | apply IH].
Qed.

Lemma admin_fold_other k l dd dd' :
  foldM admin_step dd l = Ok dd' →
  k ∉ (λ d, (ad_Country d, ad_Year d)) <$> l →
  dd' !! k = dd !! k.
Proof.
  revert dd. induction l as [|a l IH]; intros dd; simpl.
  - by intros [= <-].
  - rewrite admin_step_eq. cbv zeta. cbn [rbind]. intros H Hk.
    rewrite not_elem_of_cons in Hk. destruct Hk as [Hne Hk].
    rewrite (IH _ H Hk). by rewrite lookup_insert_ne.
Qed.

Lemma hh_flow_fold_other mu_pi k l dd dd' :
  foldM (hh_flow_step mu_pi) dd l = Ok dd' →
  k ∉ (λ d, (hf_Country d, hf_Year d)) <$> l →
  dd' !! k = dd !! k.
Proof.
  revert dd. induction l as [|a l IH]; intros dd; simpl.
  - by intros [= <-].
  - rewrite hh_flow_step_eq. cbv zeta.
    destruct (pypow _ _) as [e|p]; [done|]. cbn [rbind].
    destruct (pydiv _ _) as [e|truth]; [done|]. cbn [rbind].
    intros H Hk. rewrite not_elem_of_cons in Hk. destruct Hk as [Hne Hk].
    rewrite (IH _ H Hk). by rewrite lookup_insert_ne.
Qed.

(** the household loop never writes ["obs"] *)
Lemma hh_flow_fold_obs mu_pi k l dd dd' :
  foldM (hh_flow_step mu_pi) dd l = Ok dd' →
  dd' !! k ≫= (.!! "obs") = dd !! k ≫= (.!! "obs").
Proof.
  revert dd. induction l as [|a l IH]; intros dd; simpl.
  - by intros [= <-].
  - rewrite hh_flow_step_eq. cbv zeta.
    destruct (pypow _ _) as [e|p]; [done|]. cbn [rbind].
    destruct (pydiv _ _) as [e|truth]; [done|]. cbn [rbind].
    intros H. rewrite (IH _ H). rewrite lookup_insert.
    case_decide as Hk; [|done]. subst k. simpl.
    rewrite !lookup_insert_ne by done.
    destruct (dd !! _); simpl; [done | by rewrite lookup_empty].
Qed.

(** X16: When several rows of a table are of the same country-year, the last one
    counts: the joined record of a key holds the count of the last admin row
    of that key and the date, total and standard error of the last household
    row of that key. *)
Theorem admin_join_last_rows mu_pi (D : data_module) k dd
    la1 (ra : admin_row) la2 lh1 (rh : hh_flow_row) lh2 :
  admin_llin D = la1 ++ ra :: la2 →
  (ad_Country ra, ad_Year ra) = k →
  k ∉ (λ d, (ad_Country d, ad_Year d)) <$> la2 →
  hh_llin_flow D = lh1 ++ rh :: lh2 →
  (hf_Country rh, hf_Year rh) = k →
  k ∉ (λ d, (hf_Country d, hf_Year d)) <$> lh2 →
  admin_data_dict mu_pi D = Ok dd →
  ∃ d p, dd !! k = Some d ∧
         pypow (1 - mu_pi) (hh_time rh) = Ok p ∧
         d !! "obs" = Some (ad_Program_LLINs ra) ∧
         d !! "time" = Some (hh_time rh) ∧
         d !! "truth" = Some (hf_Total_LLINs rh / p) ∧
         d !! "se" = Some (hf_Total_st rh).
Proof.
  intros Hla Hka Hna Hlh Hkh Hnh Hdd.
  destruct (admin_join_keys mu_pi D dd k Hdd) as [[_ Hin] _].
  destruct Hin as [d Hd].
  { unfold admin_keys, hh_flow_keys. rewrite Hla, Hlh, !fmap_app, !fmap_cons.
    rewrite !elem_of_app, !elem_of_cons. auto. }
  exists d. revert Hdd Hd. unfold admin_data_dict. rewrite Hla, Hlh.
  rewrite (foldM_app admin_step ∅ la1 (ra :: la2)).
  destruct (foldM admin_step ∅ la1) as [e|s1]; [done|]. cbn [rbind foldM].
  rewrite admin_step_eq. cbv zeta. cbn [rbind]. rewrite Hka.
  destruct (foldM admin_step _ la2) as [e|dd1] eqn:H2; [done|]. cbn [rbind].
  apply admin_fold_other with (k := k) in H2; [|done].
  rewrite lookup_insert_eq in H2.
  rewrite (foldM_app (hh_flow_step mu_pi) dd1 lh1 (rh :: lh2)).
  destruct (foldM (hh_flow_step mu_pi) dd1 lh1) as [e|t1] eqn:H3; [done|].
  cbn [rbind foldM].
  apply hh_flow_fold_obs with (k := k) in H3. rewrite H2 in H3. simpl in H3.
  rewrite lookup_insert_eq in H3.
  rewrite hh_flow_step_eq. cbv zeta. rewrite Hkh.
  destruct (pypow _ _) as [e|p]; [done|]. cbn [rbind].
  destruct (pydiv _ _) as [e|truth] eqn:Hq; [done|]. cbn [rbind].
  apply pydiv_inv in Hq as [_ ->].
  destruct (foldM (hh_flow_step mu_pi) _ lh2) as [e|dd2] eqn:H4; [done|].
  cbn [rbind]. intros [= <-] Hd.
  apply keep_complete_lookup in Hd as Hd2. destruct Hd2 as [Hd2 _].
  apply hh_flow_fold_other with (k := k) in H4; [|done].
  rewrite lookup_insert_eq in H4. rewrite H4 in Hd2. injection Hd2 as <-.
  exists p. split_and!; try done.
  - rewrite !lookup_insert_ne by done.
    by destruct (t1 !! k).
  - rewrite !lookup_insert_ne by done. by rewrite lookup_insert_eq.
  - rewrite lookup_insert_ne by done. by rewrite lookup_insert_eq.
  - by rewrite lookup_insert_eq.
Qed.

(** *** Results of computing runs *)

(** X8: On a cache miss or under [recompute], whatever the retention data, once
    the sampler has reported a non-zero variance for [pi],
    [llin_discard_rate] returns the moment-matched shapes of the posterior
    mean and variance of [pi] and the cache file holds their dump. *)
Theorem llin_summary X recompute (w : world X) files post :
  cache_dir w = Some files →
  recompute = true ∨ files !! fname_reten = None →
  mcmc X (length (sampled w)) (llin_vars (retention (data X)))
       220000 20000 20 = Ok post →
  let x := mean (post name_pi) in
  let v := standard_deviation (post name_pi) ^ 2 in
  v ≠ 0 →
  let result :=
    jdict2 "alpha" (JNum (x * (x * (1 - x) / v - 1)))
           "beta" (JNum ((1 - x) * (x * (1 - x) / v - 1))) in
  (llin_discard_rate X recompute w).2 = Ok result ∧
  cache_file fname_reten (llin_discard_rate X recompute w).1 =
    Some (json_dump X result).
Proof.
  intros Hd Hmiss Hpost x v Hv result.
  rewrite (llin_computes X recompute w files post Hd Hmiss Hpost).
  cbv zeta. unfold beta_moments. fold x. unfold sqr. fold v.
  rewrite !pydiv_ok by done. cbn [rbind]. split; [done|].
  unfold cache_file. simpl. by rewrite lookup_insert_eq.
Qed.

(** X7: A computing run of [admin_err_and_bias] that returns leaves both cache
    files behind: its own, holding the dump of the result, and that of the
    discard rate, read or written by the nested call. *)
Theorem admin_run_leaves_both_files X recompute (w w' : world X) files v :
  cache_dir w = Some files →
  recompute = true ∨ files !! fname_admin = None →
  admin_err_and_bias X recompute w = (w', Ok v) →
  cache_file fname_admin w' = Some (json_dump X v) ∧
  is_Some (cache_file fname_reten w').
Proof.
  intros Hd Hmiss. unfold admin_err_and_bias.
  unfold bind at 1, in_listdir. rewrite Hd. rewrite miss_condition by done.
  unfold bind at 1.
  destruct (llin_discard_rate X false w) as [w1 [e|prior]] eqn:Hl; [done|].
  assert (∃ files1, cache_dir w1 = Some files1 ∧
                    is_Some (files1 !! fname_reten)) as (files1 & Hd1 & Hr).
  { revert Hl. unfold llin_discard_rate, bind, in_listdir, load_cache,
      MCMC_sample, lift, print, dump_cache, ret.
    intros H. repeat (simplify_eq/=; try case_match).
    - eexists. split; [done|]. eauto.
    - eexists. split; [done|]. rewrite lookup_insert_eq. eauto. }
  unfold bind, lift, MCMC_sample, print, dump_cache, ret, cache_file.
  intros H. repeat (simplify_eq/=; try case_match).
  split; [by rewrite lookup_insert_eq|].
  by rewrite lookup_insert_ne.
Qed.

(** ** The further properties at sample inputs *)

Lemma llin_fresh_run :
  llin_discard_rate X_third true (fresh_world X_third) =
  (world_after_llin, Ok result_third).
Proof.
  rewrite (llin_computes X_third true (fresh_world X_third) ∅
             (post_const (1/3) 1)); [|reflexivity|by left|reflexivity].
  cbv zeta. unfold beta_moments. cbn [post_const mean standard_deviation].
  rewrite !pydiv_ok by (unfold sqr; lra). reflexivity.
Qed.

Lemma second_call_reads_cache_witness :
  llin_discard_rate X_third false world_after_llin =
  (world_after_llin, Ok result_third).
Proof.
  apply (second_call_reads_cache X_third true (fresh_world X_third)
           world_after_llin result_third fname_reten
           (llin_discard_rate X_third)).
  - reflexivity.
  - rewrite elem_of_cons. by left.
  - exact llin_fresh_run.
Defined.

Lemma llin_miss_samples_once_witness :
  sampled (llin_discard_rate X_third true (fresh_world X_third)).1 =
  [scheduled_call (llin_vars [])].
Proof.
  apply (llin_miss_samples_once X_third true (fresh_world X_third) ∅).
  - reflexivity.
  - by left.
Defined.

Lemma cov_miss_samples_witness :
  sampled (cov_and_zif_fac X_third true (fresh_world X_third)).1 =
  [scheduled_call [Stochastic name_e (Normal 5 3);
                   Stochastic name_z (Beta 1 10)]].
Proof.
  apply (cov_miss_samples X_third true (fresh_world X_third) ∅).
  - reflexivity.
  - by left.
Defined.




Lemma beta_moments_third :
  beta_moments (1/3) (1/18) =
  Ok (1/3 * (1/3 * (1 - 1/3) / (1/18) - 1),
      (1 - 1/3) * (1/3 * (1 - 1/3) / (1/18) - 1)).
Proof. unfold beta_moments. by rewrite !pydiv_ok by lra. Qed.

Lemma beta_moments_has_moments_witness :
  beta_mean (1/3 * (1/3 * (1 - 1/3) / (1/18) - 1))
            ((1 - 1/3) * (1/3 * (1 - 1/3) / (1/18) - 1)) = 1/3 ∧
  beta_variance (1/3 * (1/3 * (1 - 1/3) / (1/18) - 1))
                ((1 - 1/3) * (1/3 * (1 - 1/3) / (1/18) - 1)) = 1/18.
Proof.
  apply (beta_moments_has_moments (1/3) (1/18)).
  - exact beta_moments_third.
  - lra.
  - lra.
Defined.

Lemma beta_moments_positive_iff_witness :
  (0 < 1/3 * (1/3 * (1 - 1/3) / (1/18) - 1) ∧
   0 < (1 - 1/3) * (1/3 * (1 - 1/3) / (1/18) - 1)) ↔
  1/18 < 1/3 * (1 - 1/3).
Proof.
  apply (beta_moments_positive_iff (1/3) (1/18)).
  - exact beta_moments_third.
  - lra.
  - lra.
Defined.


Lemma admin_join_rate_one_witness :
  admin_data_dict 1 data_late = Raise ZeroDivisionError.
Proof.
  apply (admin_join_rate_one data_late hh_row_late).
  - simpl. rewrite elem_of_cons. by left.
  - simpl. lra.
Defined.

Lemma cov_join_total_witness : ∃ dd, cov_data_dict data_cov = Ok dd.
Proof.
  apply (cov_join_total data_cov).
  - intros k. unfold hh_stock_keys, coverage_keys, population_keys. simpl.
    rewrite !elem_of_cons, !elem_of_nil. tauto.
  - intros rp. simpl. rewrite elem_of_cons, elem_of_nil.
    intros [->|[]]. simpl. lra.
Defined.

Lemma data_cov_vars : cov_vars {[key_X := fields_cov]} = Ok vars_cov.
Proof.
  unfold cov_vars. rewrite map_to_list_singleton. cbn [foldM fst snd].
  rewrite (cov_nodes_eq key_X fields_cov (1200 / (10 * 1000))
             (50 / (10 * 1000)) (4/10) (5/100)) by done.
  rewrite !pow_m2_ok by lra. reflexivity.
Qed.

Lemma cov_likelihood_witness :
  ∃ rp rs rc logp,
    rp ∈ population data_cov ∧ rs ∈ hh_llin_stock data_cov ∧
    rc ∈ llin_coverage data_cov ∧
    (pp_Country rp, pp_Year rp) = key_X ∧
    (hs_Country rs, hs_Survey_Year2 rs) = key_X ∧
    (cv_Country rc, cv_Survey_Year2 rc) = key_X ∧
    let pop := pp_Pop rp * 1000 in
    Stochastic (stock_name key_X)
               (Normal (hs_SvyIndex_LLINstotal rs / pop)
                       (/ (hs_SvyIndex_st rs / pop) ^ 2)) ∈ vars_cov ∧
    Observed "obs" (cv_Per_0LLINs rc) logp ∈ vars_cov ∧
    ∀ env : valuation,
      logp env =
      Ok (normal_logpdf
            (env name_z +
             (1 - env name_z) * exp (- env name_e * env (stock_name key_X)))
            (cv_LLINs0_SE rc ^ 2) (cv_Per_0LLINs rc)).
Proof.
  apply (cov_likelihood data_cov {[key_X := fields_cov]} vars_cov key_X
           fields_cov).
  - exact data_cov_join.
  - exact data_cov_vars.
  - apply lookup_singleton_eq.
Defined.



Lemma admin_join_last_rows_witness :
  ∃ dd, admin_data_dict (1/3) data_dup = Ok dd ∧
    ∃ d p, dd !! key_X = Some d ∧
           pypow (1 - 1/3) (hh_time hh_row_X) = Ok p ∧
           d !! "obs" = Some 1000 ∧
           d !! "time" = Some (hh_time hh_row_X) ∧
           d !! "truth" = Some (1200 / p) ∧
           d !! "se" = Some 50.
Proof.
  destruct (admin_join_returns (1/3) data_dup) as [dd Hdd]; [lra|].
  exists dd. split; [exact Hdd|].
  apply (admin_join_last_rows (1/3) data_dup key_X dd
           [admin_row_old] admin_row_X [] [] hh_row_X []).
  - reflexivity.
  - reflexivity.
  - apply not_elem_of_nil.
  - reflexivity.
  - reflexivity.
  - apply not_elem_of_nil.
  - exact Hdd.
Defined.

Lemma llin_summary_witness :
  let x := 1/3 in
  let v := 1 ^ 2 in
  let result :=
    jdict2 "alpha" (JNum (x * (x * (1 - x) / v - 1)))
           "beta" (JNum ((1 - x) * (x * (1 - x) / v - 1))) in
  (llin_discard_rate X_third true (fresh_world X_third)).2 = Ok result ∧
  cache_file fname_reten
    (llin_discard_rate X_third true (fresh_world X_third)).1 = Some result.
Proof.
  intros x v result.
  apply (llin_summary X_third true (fresh_world X_third) ∅
           (post_const (1/3) 1)).
  - reflexivity.
  - by left.
  - reflexivity.
  - simpl. lra.
Defined.

Lemma admin_run_leaves_both_files_witness :
  let w := world_prior_12 X_admin (reten_dict (1, 2)) in
  ∃ w' v, admin_err_and_bias X_admin true w = (w', Ok v) ∧
          cache_file fname_admin w' = Some v ∧
          is_Some (cache_file fname_reten w').
Proof.
  intros w.
  destruct (admin_computes X_admin true w w
              {[fname_reten := reten_dict (1, 2)]}
              {[fname_reten := reten_dict (1, 2)]} (reten_dict (1, 2)) 1 2
              {[key_X := fields_X]}
              [Stochastic name_sigma_admin (InverseGamma 11 1);
               Stochastic name_eps (Normal 0 1); node_X]
              (post_const (1/3) 1)
              eq_refl (or_introl eq_refl) eq_refl eq_refl eq_refl eq_refl)
    as [v Hv]; [lra | exact data_X_join | exact data_X_vars | reflexivity
               | simpl; lra | simpl; lra |].
  eexists _, v. split; [exact Hv|].
  apply (admin_run_leaves_both_files X_admin true w _
           {[fname_reten := reten_dict (1, 2)]} v).
  - reflexivity.
  - by left.
  - exact Hv.
Defined.
